(** * File Organizer: a shallow embedding of [FileOrganizer] and its contracts

    The development follows [src/File_Organizer.py], class [FileOrganizer]
    (lines 21-264) and the two callers that guard it ([handle_organize],
    lines 337-385).  Python strings are byte strings here ([string] of
    [ascii]); dictionaries that the program iterates in insertion order are
    association lists; the statistics dictionary is a [gmap]; the file system
    is a finite map from path strings to nodes. *)

From Stdlib Require Import ZArith Ascii String.
From stdpp Require Import gmap strings list fin_maps pretty.

(** ** Python string and path primitives *)

Module Py.

(** [str.lower] on the ASCII range. *)
Definition lower_char (c : ascii) : ascii :=
  let n := nat_of_ascii c in
  if (65 <=? n) && (n <=? 90) then ascii_of_nat (n + 32) else c.

Fixpoint lower (s : string) : string :=
  match s with
  | EmptyString => EmptyString
  | String c s' => String (lower_char c) (lower s')
  end.

(** [s.startswith(p)] and [s.endswith(suf)]. *)
Definition startswith (s p : string) : bool := String.prefix p s.

Fixpoint endswith (s suf : string) : bool :=
  String.eqb s suf ||
  match s with
  | EmptyString => false
  | String _ s' => endswith s' suf
  end.

(** [s.rfind(c)]: index of the last occurrence, [None] for Python's -1. *)
Fixpoint rfind (c : ascii) (s : string) : option nat :=
  match s with
  | EmptyString => None
  | String a s' =>
      match rfind c s' with
      | Some i => Some (S i)
      | None => if Ascii.eqb a c then Some 0 else None
      end
  end.

(** Slices [p[:i]] and [p[i:]]. *)
Definition take (i : nat) (p : string) : string := String.substring 0 i p.
Definition drop (i : nat) (p : string) : string :=
  String.substring i (String.length p - i) p.

(** [s.strip()]: white space is removed at both ends. *)
Definition is_space (c : ascii) : bool :=
  let n := nat_of_ascii c in
  ((9 <=? n) && (n <=? 13)) || ((28 <=? n) && (n <=? 32)).

Fixpoint lstrip (s : string) : string :=
  match s with
  | String c s' => if is_space c then lstrip s' else s
  | EmptyString => EmptyString
  end.

Definition strip (s : string) : string :=
  String.rev (lstrip (String.rev (lstrip s))).

(** [posixpath.join(a, b)]. *)
Definition join (a b : string) : string :=
  if startswith b "/" then b
  else if String.eqb a "" || endswith a "/" then a +:+ b
  else a +:+ "/" +:+ b.

(** [os.path.join(a, b, c, ...)] folds [join] from the left. *)
Definition join_all (a : string) (ps : list string) : string :=
  foldl join a ps.

(** The scan of [genericpath._splitext] over the leading dots:
    [while filenameIndex < dotIndex], with [fuel = dotIndex - filenameIndex]. *)
Fixpoint splitext_scan (fuel : nat) (p : string) (filenameIndex dotIndex : nat)
  : string * string :=
  match fuel with
  | O => (p, "")
  | S fuel' =>
      match String.get filenameIndex p with
      | Some c =>
          if Ascii.eqb c "."%char
          then splitext_scan fuel' p (S filenameIndex) dotIndex
          else (take dotIndex p, drop dotIndex p)
      | None => (take dotIndex p, drop dotIndex p)
      end
  end.

(** [os.path.splitext(p)] (posix: separator "/", no alternative separator). *)
Definition splitext (p : string) : string * string :=
  let filenameIndex :=
    match rfind "/"%char p with Some i => S i | None => 0 end in
  match rfind "."%char p with
  | Some dotIndex =>
      if filenameIndex <=? dotIndex
      then splitext_scan (dotIndex - filenameIndex) p filenameIndex dotIndex
      else (p, "")
  | None => (p, "")
  end.

End Py.

(** ** The environment: file system, permissions, configuration file, log *)

(** Exceptions the program raises or catches.  All but [ReError] are
    subclasses of [OSError] ([shutil.Error] included). *)
Inductive exn :=
| PermissionError | FileNotFoundError | NotADirectoryError
| IsADirectoryError | FileExistsError | ShutilError | ReError.

Definition is_OSError (e : exn) : bool :=
  match e with ReError => false | _ => true end.

(** A file carries its bytes and its modification time; directories carry
    nothing.  Paths are compared as strings (no normalisation). *)
Inductive node :=
| File (data : string) (mtime : Z)
| Dir.

Global Instance node_eq_dec : EqDecision node.
Proof. solve_decision. Defined.

(** Lines written by [logging.info/warning/error], one constructor per
    message of [FileOrganizer]. *)
Inductive event :=
| InfoSkippedExcluded (filename : string)
| InfoCopied (filename destination_path : string)
| InfoMoved (filename destination_path : string)
| ErrorOrganizing (filename : string) (e : exn)
| ErrorDuringOrganization (e : exn)
| WarnNoOperations
| InfoUndoneMove (destination source : string)
| InfoUndoneCopy (destination : string)
| ErrorUndoing (e : exn)
| InfoAddedExclude (pattern : string)
| ErrorInvalidRegex (pattern : string)
| InfoConfigSaved
| ErrorSavingConfig (e : exn).

(** [self.stats] *)
Record Stats := mkStats {
  total_files : nat;
  organized_files : nat;
  skipped_files : nat;
  categories : gmap string nat;
  total_size : nat
}.

(** An entry of [self.operation_history]: a dictionary with the string
    discriminator ["move"] or ["copy"]. *)
Record operation := mkOperation {
  op_operation : string;
  op_source : string;
  op_destination : string
}.

(** The [FileOrganizer] object (first four fields) together with the part of
    the machine it acts on: the file system [fs]; the paths the process may
    not read, move or delete ([locked], the source of [PermissionError]);
    the parsed contents of [organizer_config.json] and whether it can be
    written; the log. *)
Record state := mkState {
  file_types : list (string * list string);
  excluded_patterns : list string;
  operation_history : list operation;
  stats : Stats;
  fs : gmap string node;
  locked : gset string;
  config_file : option (list (string * list string) * list string);
  config_writable : bool;
  log : list event
}.

Definition set_excluded_patterns (v : list string) (s : state) : state :=
  mkState (file_types s) v (operation_history s) (stats s) (fs s) (locked s)
          (config_file s) (config_writable s) (log s).
Definition set_operation_history (v : list operation) (s : state) : state :=
  mkState (file_types s) (excluded_patterns s) v (stats s) (fs s) (locked s)
          (config_file s) (config_writable s) (log s).
Definition set_stats (v : Stats) (s : state) : state :=
  mkState (file_types s) (excluded_patterns s) (operation_history s) v (fs s)
          (locked s) (config_file s) (config_writable s) (log s).
Definition set_fs (v : gmap string node) (s : state) : state :=
  mkState (file_types s) (excluded_patterns s) (operation_history s) (stats s) v
          (locked s) (config_file s) (config_writable s) (log s).
Definition set_config_file
    (v : option (list (string * list string) * list string)) (s : state) : state :=
  mkState (file_types s) (excluded_patterns s) (operation_history s) (stats s)
          (fs s) (locked s) v (config_writable s) (log s).
Definition logging (ev : event) (s : state) : state :=
  mkState (file_types s) (excluded_patterns s) (operation_history s) (stats s)
          (fs s) (locked s) (config_file s) (config_writable s) (log s ++ [ev]).

(** ** Computations that change the state and may raise *)

Inductive result (A : Type) :=
| Ok (a : A)
| Raise (e : exn).
Arguments Ok {A} a.
Arguments Raise {A} e.

Definition M (A : Type) : Type := state → result A * state.

Definition ret {A} (a : A) : M A := λ s, (Ok a, s).
Definition raise {A} (e : exn) : M A := λ s, (Raise e, s).
Definition bind {A B} (c : M A) (k : A → M B) : M B :=
  λ s, match c s with
       | (Ok a, s') => k a s'
       | (Raise e, s') => (Raise e, s')
       end.
Definition get_state : M state := λ s, (Ok s, s).
Definition modify (f : state → state) : M unit := λ s, (Ok tt, f s).

(** [try: c except <sel> as e: h e]; state changes made by [c] before it
    raised are kept, as in Python. *)
Definition try_except {A} (c : M A) (sel : exn → bool) (h : exn → M A) : M A :=
  λ s, match c s with
       | (Ok a, s') => (Ok a, s')
       | (Raise e, s') => if sel e then h e s' else (Raise e, s')
       end.

Notation "'let*' x ':=' c1 'in' c2" := (bind c1 (λ x, c2))
  (at level 10, x name, c1 at level 100, c2 at level 200).
Notation "c1 ;; c2" := (bind c1 (λ _, c2))
  (at level 100, c2 at level 200, right associativity).

(** [for x in xs: body x] *)
Fixpoint for_each {A} (xs : list A) (body : A → M unit) : M unit :=
  match xs with
  | [] => ret tt
  | x :: rest => body x ;; for_each rest body
  end.

(** ** The Python library calls the program makes, on the state above *)

Module OS.

Definition path_exists (p : string) (s : state) : bool :=
  bool_decide (is_Some (fs s !! p)).

Definition path_isdir (p : string) (s : state) : bool :=
  bool_decide (fs s !! p = Some Dir).

(** [os.path.getsize] and [os.path.getmtime] *)
Definition getsize (p : string) : M nat := λ s,
  match fs s !! p with
  | Some (File data _) => (Ok (String.length data), s)
  | Some Dir => (Ok 0, s)
  | None => (Raise FileNotFoundError, s)
  end.

Definition getmtime (p : string) : M Z := λ s,
  match fs s !! p with
  | Some (File _ mtime) => (Ok mtime, s)
  | Some Dir => (Ok 0%Z, s)
  | None => (Raise FileNotFoundError, s)
  end.

(** [os.path.basename(p.rstrip("/"))], as [shutil._basename] does. *)
Fixpoint rstrip_sep_rev (r : string) : string :=
  match r with
  | String "/" r' => rstrip_sep_rev r'
  | _ => r
  end.
Definition rstrip_sep (p : string) : string :=
  String.rev (rstrip_sep_rev (String.rev p)).
Definition basename (p : string) : string :=
  match Py.rfind "/"%char p with
  | Some i => Py.drop (S i) p
  | None => p
  end.

(** The directories above [p]: every prefix that ends just before a
    separator, shallowest first. *)
Definition ancestors (p : string) : list string :=
  omap (λ i, match String.get i p, String.get (i - 1) p with
             | Some "/"%char, Some c =>
                 if Ascii.eqb c "/"%char then None else Some (Py.take i p)
             | _, _ => None
             end)
       (seq 1 (String.length p - 1)).

Definition mkdir_if_missing (p : string) : M unit := λ s,
  match fs s !! p with
  | Some Dir => (Ok tt, s)
  | Some (File _ _) => (Raise NotADirectoryError, s)
  | None => (Ok tt, set_fs (<[p := Dir]> (fs s)) s)
  end.

(** [os.makedirs(p)]: creates the missing intermediate directories, then
    [p] itself; raises when [p] exists or a component is a file. *)
Definition makedirs (p : string) : M unit :=
  for_each (ancestors p) mkdir_if_missing ;;
  λ s, match fs s !! p with
       | Some _ => (Raise FileExistsError, s)
       | None => (Ok tt, set_fs (<[p := Dir]> (fs s)) s)
       end.

(** The name of [k] inside directory [d], when [k] is directly in it. *)
Definition child_name (d k : string) : option string :=
  let pre := if Py.endswith d "/" then d else d +:+ "/" in
  if Py.startswith k pre then
    let n := Py.drop (String.length pre) k in
    if String.eqb n "" then None
    else match Py.rfind "/"%char n with Some _ => None | None => Some n end
  else None.

(** [os.listdir(d)], in the (arbitrary but fixed) order of the map. *)
Definition listdir (d : string) : M (list string) := λ s,
  if String.eqb d "" then (Raise FileNotFoundError, s)
  else if bool_decide (d ∈ locked s) then (Raise PermissionError, s)
  else match fs s !! d with
       | None => (Raise FileNotFoundError, s)
       | Some (File _ _) => (Raise NotADirectoryError, s)
       | Some Dir => (Ok (omap (λ kv, child_name d kv.1) (map_to_list (fs s))), s)
       end.

(** [os.remove(p)] *)
Definition remove (p : string) : M unit := λ s,
  if bool_decide (p ∈ locked s) then (Raise PermissionError, s)
  else match fs s !! p with
       | None => (Raise FileNotFoundError, s)
       | Some Dir => (Raise IsADirectoryError, s)
       | Some (File _ _) => (Ok tt, set_fs (delete p (fs s)) s)
       end.

End OS.

Module Shutil.

(** [shutil.move(src, dst)]: into [dst] when it is an existing directory,
    onto [dst] otherwise (a rename replaces an existing file).  Only the
    node at [src] moves. *)
Definition move (src dst : string) : M unit := λ s,
  if bool_decide (src ∈ locked s) then (Raise PermissionError, s)
  else match fs s !! src with
       | None => (Raise FileNotFoundError, s)
       | Some n =>
           if OS.path_isdir dst s then
             if String.eqb src dst then (Ok tt, s)
             else
               let real_dst := Py.join dst (OS.basename (OS.rstrip_sep src)) in
               if OS.path_exists real_dst s then (Raise ShutilError, s)
               else (Ok tt, set_fs (<[real_dst := n]> (delete src (fs s))) s)
           else (Ok tt, set_fs (<[dst := n]> (delete src (fs s))) s)
       end.

(** [shutil.copy2(src, dst)]: bytes and modification time are copied. *)
Definition copy2 (src dst : string) : M unit := λ s,
  let dst := if OS.path_isdir dst s then Py.join dst (OS.basename src) else dst in
  if bool_decide (src ∈ locked s) then (Raise PermissionError, s)
  else match fs s !! src with
       | None => (Raise FileNotFoundError, s)
       | Some Dir => (Raise IsADirectoryError, s)
       | Some (File data mtime) =>
           if String.eqb src dst then (Raise ShutilError, s)
           else if OS.path_isdir dst s then (Raise IsADirectoryError, s)
           else (Ok tt, set_fs (<[dst := File data mtime]> (fs s)) s)
       end.

End Shutil.

(** ** What the program takes from outside

    The regular-expression engine ([re]), the local-time rendering of a
    timestamp and the name of the running script are parameters. *)
Class Env := {
  (** [re.compile(pattern)] succeeds *)
  re_valid : string → bool;
  (** [re.search(pattern, text)] finds a match, for a pattern that compiles *)
  re_found : string → string → bool;
  (** [datetime.datetime.fromtimestamp(t).strftime('%Y-%m-%d')] *)
  strftime_ymd : Z → string;
  (** [os.path.basename(__file__)] *)
  script_name : string
}.

(** ** Class [FileOrganizer] *)

Section FileOrganizer.
Context {env : Env}.

(** [re.search(pattern, text)] compiles the pattern first. *)
Definition re_search (pattern text : string) : result bool :=
  if re_valid pattern then Ok (re_found pattern text) else Raise ReError.

(** [save_config], lines 69-79 *)
Definition save_config : M unit := λ s,
  if config_writable s
  then (Ok tt, logging InfoConfigSaved
                 (set_config_file (Some (file_types s, excluded_patterns s)) s))
  else (Ok tt, logging (ErrorSavingConfig PermissionError) s).

(** [is_excluded], lines 81-86 *)
Fixpoint is_excluded_in (patterns : list string) (filename : string) : result bool :=
  match patterns with
  | [] => Ok false
  | pattern :: rest =>
      match re_search pattern filename with
      | Ok true => Ok true
      | Ok false => is_excluded_in rest filename
      | Raise e => Raise e
      end
  end.

Definition is_excluded (filename : string) : M bool :=
  λ s, (is_excluded_in (excluded_patterns s) filename, s).

(** Lines 132-141: the first folder one of whose extensions ends the
    lower-cased file name; ["Others"] when the loop leaves
    [destination_folder] unset (or falsy). *)
Fixpoint first_matching_folder
    (items : list (string * list string)) (filename : string) : option string :=
  match items with
  | [] => None
  | (folder, extensions) :: rest =>
      if existsb (λ ext, Py.endswith (Py.lower filename) ext) extensions
      then Some folder
      else first_matching_folder rest filename
  end.

Definition classify (items : list (string * list string)) (filename : string) : string :=
  match first_matching_folder items filename with
  | Some folder => if String.eqb folder "" then "Others" else folder
  | None => "Others"
  end.

(** Lines 92-99: the statistics a run starts from. *)
Definition fresh_stats (items : list (string * list string)) : Stats :=
  mkStats 0 0 0 (gset_to_gmap 0 (list_to_set items.*1 ∪ {["Others"]})) 0.

Definition skipped_incr (st : Stats) : Stats :=
  mkStats (total_files st) (organized_files st) (S (skipped_files st))
          (categories st) (total_size st).
Definition total_incr (st : Stats) : Stats :=
  mkStats (S (total_files st)) (organized_files st) (skipped_files st)
          (categories st) (total_size st).
Definition size_add (n : nat) (st : Stats) : Stats :=
  mkStats (total_files st) (organized_files st) (skipped_files st)
          (categories st) (total_size st + n).
Definition organized_incr (folder : string) (st : Stats) : Stats :=
  mkStats (total_files st) (S (organized_files st)) (skipped_files st)
          (<[folder := default 0 (categories st !! folder) + 1]> (categories st))
          (total_size st).
Definition update_stats (f : Stats → Stats) : M unit :=
  modify (λ s, set_stats (f (stats s)) s).

(** Lines 171-177: [while os.path.exists(destination_path)].  [candidate
    counter] is the path built from [new_filename]; the loop is run for at
    most [fuel] renamings. *)
Fixpoint free_name_loop (fuel : nat) (s : state) (candidate : nat → string)
    (destination_path : string) (counter : nat) : option string :=
  if OS.path_exists destination_path s then
    match fuel with
    | O => None
    | S fuel' => free_name_loop fuel' s candidate (candidate counter) (S counter)
    end
  else Some destination_path.

(** Lines 167-179.  One more renaming than there are paths in the file
    system always reaches a free name, see [free_name_loop_total]; the
    [None] branch is never taken. *)
Definition resolve_conflict (s : state) (dest_dir : list string) (directory filename : string)
    (destination_path : string) : string :=
  if OS.path_exists destination_path s then
    let '(base, extension) := Py.splitext filename in
    let candidate counter :=
      Py.join_all directory
        (dest_dir ++ [base +:+ "_" +:+ pretty counter +:+ extension]) in
    match free_name_loop (S (size (fs s))) s candidate destination_path 1 with
    | Some p => p
    | None => destination_path
    end
  else destination_path.

(** Lines 159-193, the body of the inner [try]. *)
Definition transfer (directory filename file_path destination_folder : string)
    (dest_dir : list string) (destination_path : string)
    (copy_instead_of_move : bool) : M unit :=
  let* s := get_state in
  let destination_path := resolve_conflict s dest_dir directory filename destination_path in
  let operation :=
    mkOperation (if copy_instead_of_move then "copy" else "move")
                file_path destination_path in
  (if copy_instead_of_move
   then Shutil.copy2 file_path destination_path ;;
        modify (logging (InfoCopied filename destination_path))
   else Shutil.move file_path destination_path ;;
        modify (logging (InfoMoved filename destination_path))) ;;
  modify (λ s, set_operation_history (operation_history s ++ [operation]) s) ;;
  update_stats (organized_incr destination_folder).

(** Lines 113-197, the body of [for filename in os.listdir(directory)]. *)
Definition organize_entry (directory : string)
    (organize_by_date copy_instead_of_move : bool) (filename : string) : M unit :=
  let file_path := Py.join directory filename in
  let* s := get_state in
  if OS.path_isdir file_path s || String.eqb filename script_name
     || Py.endswith filename ".log"
  then ret tt
  else
    let* excluded := is_excluded filename in
    if excluded then
      update_stats skipped_incr ;;
      modify (logging (InfoSkippedExcluded filename))
    else
      update_stats total_incr ;;
      let* file_size := OS.getsize file_path in
      update_stats (size_add file_size) ;;
      let* s := get_state in
      let destination_folder := classify (file_types s) filename in
      let* dest_dir :=
        (if organize_by_date then
           let* mod_time := OS.getmtime file_path in
           let date_str := strftime_ymd mod_time in
           let date_folder := Py.join_all directory [destination_folder; date_str] in
           let* s := get_state in
           (if OS.path_exists date_folder s then ret tt else OS.makedirs date_folder) ;;
           ret [destination_folder; date_str]
         else ret [destination_folder]) in
      let destination_path := Py.join_all directory (dest_dir ++ [filename]) in
      try_except
        (transfer directory filename file_path destination_folder dest_dir
                  destination_path copy_instead_of_move)
        is_OSError
        (λ e, update_stats skipped_incr ;;
              modify (logging (ErrorOrganizing filename e))).

(** Lines 101-110: one folder per category, then ["Others"]. *)
Definition ensure_folder (directory folder : string) : M unit :=
  let folder_path := Py.join directory folder in
  let* s := get_state in
  if OS.path_exists folder_path s then ret tt else OS.makedirs folder_path.

(** [organize_files], lines 88-203 *)
Definition organize_files (directory : string)
    (organize_by_date copy_instead_of_move : bool) : M Stats :=
  try_except
    (modify (λ s, set_stats (fresh_stats (file_types s)) s) ;;
     let* s := get_state in
     for_each (file_types s).*1 (ensure_folder directory) ;;
     ensure_folder directory "Others" ;;
     let* names := OS.listdir directory in
     for_each names (organize_entry directory organize_by_date copy_instead_of_move) ;;
     let* s := get_state in
     ret (stats s))
    (λ _, true)
    (λ e, modify (logging (ErrorDuringOrganization e)) ;; raise e).

(** [undo_last_operation], lines 205-229.  [operation_history.pop()] takes
    the last element. *)
Definition undo_last_operation : M bool :=
  let* s := get_state in
  match last (operation_history s) with
  | None => modify (logging WarnNoOperations) ;; ret false
  | Some operation =>
      modify (set_operation_history (removelast (operation_history s))) ;;
      try_except
        (let* s := get_state in
         if String.eqb (op_operation operation) "move" then
           if OS.path_exists (op_destination operation) s then
             Shutil.move (op_destination operation) (op_source operation) ;;
             modify (logging (InfoUndoneMove (op_destination operation)
                                             (op_source operation))) ;;
             ret true
           else ret false
         else if String.eqb (op_operation operation) "copy" then
           if OS.path_exists (op_destination operation) s then
             OS.remove (op_destination operation) ;;
             modify (logging (InfoUndoneCopy (op_destination operation))) ;;
             ret true
           else ret false
         else ret false)
        (λ _, true)
        (λ e, modify (logging (ErrorUndoing e)) ;; ret false)
  end.

(** [add_exclude_pattern], lines 231-242 *)
Definition add_exclude_pattern (pattern : string) : M bool :=
  if re_valid pattern then
    modify (λ s, set_excluded_patterns (excluded_patterns s ++ [pattern]) s) ;;
    save_config ;;
    modify (logging (InfoAddedExclude pattern)) ;;
    ret true
  else
    modify (logging (ErrorInvalidRegex pattern)) ;;
    ret false.

(** [handle_organize] of [FileOrganizerCLI], lines 337-385.  The answers to
    the three prompts are arguments; what is printed is left out. *)
Definition handle_organize (args : string)
    (organize_by_date copy_instead_of_move confirmed : bool) : M unit :=
  if String.eqb args "" then ret tt
  else
    let directory := Py.strip args in
    let* s := get_state in
    if negb (OS.path_isdir directory s) then ret tt
    else if negb copy_instead_of_move && negb confirmed then ret tt
    else
      try_except
        (organize_files directory organize_by_date copy_instead_of_move ;; ret tt)
        (λ _, true)
        (λ _, ret tt).

End FileOrganizer.

(** ** The summary text *)

Definition nl : string := String "010"%char "".

(** [f"{x:.2f}"] for the ratio [x = num / den] with [0 < den]: the nearest
    multiple of 0.01, an exact tie going to the even digit (Python rounds the
    exact binary value). *)
Definition round_half_even (num den : Z) : Z :=
  let q := (num / den)%Z in
  let r := (num mod den)%Z in
  if (2 * r <? den)%Z then q
  else if (den <? 2 * r)%Z then (q + 1)%Z
  else if Z.even q then q else (q + 1)%Z.

Definition two_digits (n : Z) : string :=
  if (n <? 10)%Z then "0" +:+ pretty n else pretty n.

Definition fmt_2f (num den : Z) : string :=
  let h := round_half_even (Z.abs num * 100) den in
  (if (num <? 0)%Z then "-" else "")
  +:+ pretty (h / 100)%Z +:+ "." +:+ two_digits (h mod 100)%Z.

(** [format_size], lines 259-264.  [size_bytes] starts as an integer and
    becomes a float on the first division; here it is the exact ratio
    [num / den] ([den] a power of 1024, for which the float division is
    exact).  [None] is Python's implicit [return None] after the loop. *)
Fixpoint format_size_loop (units : list string) (num den : Z) : option string :=
  match units with
  | [] => None
  | unit :: rest =>
      if (num <? 1024 * den)%Z || String.eqb unit "GB"
      then Some (fmt_2f num den +:+ " " +:+ unit)
      else format_size_loop rest num (den * 1024)
  end.

Definition format_size (size_bytes : Z) : option string :=
  format_size_loop ["B"; "KB"; "MB"; "GB"] size_bytes 1.

(** [get_summary], lines 244-257 *)
Definition category_lines (items : list (string * nat)) : string :=
  foldl (λ summary '(category, count),
           if 0 <? count
           then summary +:+ "  - " +:+ category +:+ ": " +:+ pretty count +:+ nl
           else summary)
        "" items.

Definition get_summary (s : state) : string :=
  "Organization Summary:" +:+ nl
  +:+ "Total files processed: " +:+ pretty (total_files (stats s)) +:+ nl
  +:+ "Files organized: " +:+ pretty (organized_files (stats s)) +:+ nl
  +:+ "Files skipped: " +:+ pretty (skipped_files (stats s)) +:+ nl
  +:+ "Total size processed: "
  +:+ default "None" (format_size (Z.of_nat (total_size (stats s)))) +:+ nl +:+ nl
  +:+ "Files by category:" +:+ nl
  +:+ category_lines (map_to_list (categories (stats s))).

(** ** A concrete environment, to run the program on examples *)

Module Demo.

(** A matcher for a fragment of [re]: literal characters, escaped
    punctuation, [.], a postfix [*], [^] in front and [$] at the end.
    Every pattern it accepts means the same to Python; the patterns it
    rejects include all those on which [re.compile] raises for an
    unbalanced bracket or a repetition of nothing. *)
Inductive atom := Lit (c : ascii) | AnyChar.

Definition is_meta (c : ascii) : bool :=
  existsb (Ascii.eqb c) (list_ascii_of_string "()[]{}+?|*^$").

Definition is_alnum (c : ascii) : bool :=
  let n := nat_of_ascii c in
  ((48 <=? n) && (n <=? 57)) || ((65 <=? n) && (n <=? 90))
  || ((97 <=? n) && (n <=? 122)).

Fixpoint parse (p : string) : option (list (atom * bool) * bool) :=
  let starred a rest :=
    match rest with
    | String "*" rest' =>
        match parse rest' with
        | Some (atoms, eol) => Some ((a, true) :: atoms, eol)
        | None => None
        end
    | _ =>
        match parse rest with
        | Some (atoms, eol) => Some ((a, false) :: atoms, eol)
        | None => None
        end
    end in
  match p with
  | EmptyString => Some ([], false)
  | String "$" EmptyString => Some ([], true)
  | String "\" (String c rest) =>
      if is_alnum c then None else starred (Lit c) rest
  | String "\" EmptyString => None
  | String "." rest => starred AnyChar rest
  | String c rest => if is_meta c then None else starred (Lit c) rest
  end%char.

Definition compile (p : string) : option (bool * list (atom * bool) * bool) :=
  match p with
  | String "^" p' =>
      match parse p' with Some (atoms, eol) => Some (true, atoms, eol) | None => None end
  | _ =>
      match parse p with Some (atoms, eol) => Some (false, atoms, eol) | None => None end
  end%char.

Definition atom_ok (a : atom) (c : ascii) : bool :=
  match a with Lit d => Ascii.eqb c d | AnyChar => negb (Ascii.eqb c "010") end.

Fixpoint match_here (atoms : list (atom * bool)) (eol : bool) (text : string) : bool :=
  match atoms with
  | [] => if eol then String.eqb text "" else true
  | (a, false) :: atoms' =>
      match text with
      | String c text' => atom_ok a c && match_here atoms' eol text'
      | EmptyString => false
      end
  | (a, true) :: atoms' =>
      (fix star (text : string) : bool :=
         match_here atoms' eol text
         || match text with
            | String c text' => atom_ok a c && star text'
            | EmptyString => false
            end) text
  end.

Fixpoint search_from (atoms : list (atom * bool)) (eol : bool) (text : string) : bool :=
  match_here atoms eol text
  || match text with
     | String _ text' => search_from atoms eol text'
     | EmptyString => false
     end.

Definition valid (p : string) : bool := bool_decide (is_Some (compile p)).

Definition found (p text : string) : bool :=
  match compile p with
  | Some (true, atoms, eol) => match_here atoms eol text
  | Some (false, atoms, eol) => search_from atoms eol text
  | None => false
  end.

(** The calendar date (UTC) of a timestamp in seconds, as [YYYY-MM-DD]. *)
Definition pad (width : nat) (n : Z) : string :=
  let digits := pretty n in
  String.string_of_list_ascii
    (replicate (width - String.length digits) "0"%char) +:+ digits.

Definition ymd (t : Z) : string :=
  let z := (t / 86400 + 719468)%Z in
  let era := (z / 146097)%Z in
  let doe := (z - era * 146097)%Z in
  let yoe := ((doe - doe / 1460 + doe / 36524 - doe / 146096) / 365)%Z in
  let doy := (doe - (365 * yoe + yoe / 4 - yoe / 100))%Z in
  let mp := ((5 * doy + 2) / 153)%Z in
  let d := (doy - (153 * mp + 2) / 5 + 1)%Z in
  let m := (if (mp <? 10)%Z then mp + 3 else mp - 9)%Z in
  let y := (yoe + era * 400 + (if (m <=? 2)%Z then 1 else 0))%Z in
  pad 4 y +:+ "-" +:+ pad 2 m +:+ "-" +:+ pad 2 d.

Definition env : Env :=
  {| re_valid := valid; re_found := found; strftime_ymd := ymd;
     script_name := "File_Organizer.py" |}.

End Demo.


(** ** Notions the specification uses *)


(** Extension strings are stored in lower case (data model, CategoryRuleSet). *)
Definition lowercase (ext : string) : Prop := Py.lower ext = ext.


(** ** States used in examples *)

Definition default_file_types : list (string * list string) :=
  [("Videos", [".mp4"; ".mkv"; ".flv"; ".avi"; ".mov"; ".wmv"; ".m4v"; ".mpg"; ".mpeg"]);
   ("Photos", [".jpg"; ".jpeg"; ".png"; ".cr2"; ".gif"; ".bmp"; ".tiff"; ".svg";
               ".webp"; ".raw"]);
   ("Music", [".mp3"; ".wav"; ".aac"; ".flac"; ".ogg"; ".m4a"; ".wma"; ".opus"]);
   ("Documents", [".pdf"; ".doc"; ".docx"; ".xls"; ".xlsx"; ".ppt"; ".pptx"; ".txt";
                  ".rtf"; ".odt"; ".md"; ".csv"]);
   ("Archives", [".zip"; ".rar"; ".7z"; ".tar"; ".gz"; ".bz2"; ".xz"]);
   ("Code", [".py"; ".java"; ".cpp"; ".c"; ".h"; ".js"; ".html"; ".css"; ".php";
             ".rb"; ".go"; ".rs"; ".json"]);
   ("Executables", [".exe"; ".msi"; ".app"; ".bat"; ".sh"])].

(** A freshly constructed [FileOrganizer] ([__init__], lines 22-49) over a
    given file system. *)
Definition new_organizer (files : list (string * node)) (denied : list string) : state :=
  mkState default_file_types [] [] (mkStats 0 0 0 ∅ 0)
          (list_to_map files) (list_to_set denied) None true [].


(** ** Relations used in the proofs *)

(** [s'] is [s] with directories created at some paths that were free. *)
Definition dirs_added (s s' : state) : Prop :=
  (∀ p, fs s' !! p = fs s !! p ∨ (fs s !! p = None ∧ fs s' !! p = Some Dir))
  ∧ s' = set_fs (fs s') s.

Section Outcomes.
Context {env : Env}.

(** The entry passes the first test of the loop body (line 117). *)
Definition passed_over (directory filename : string) (s : state) : Prop :=
  OS.path_isdir (Py.join directory filename) s = true
  ∨ filename = script_name
  ∨ Py.endswith filename ".log" = true.

(** The state [sm] and the folder list [dest_dir] with which the transfer
    of a file starts (lines 126-156): the file has been counted and, with
    date folders, its date folder exists. *)
Definition prepared (directory filename : string) (organize_by_date : bool)
    (data : string) (mtime : Z) (s sm : state) (dest_dir : list string) : Prop :=
  let counted := set_stats (size_add (String.length data) (total_incr (stats s))) s in
  let destination_folder := classify (file_types s) filename in
  if organize_by_date then
    let date_folder :=
      Py.join_all directory [destination_folder; strftime_ymd mtime] in
    dest_dir = [destination_folder; strftime_ymd mtime]
    ∧ ((OS.path_exists date_folder s = true ∧ sm = counted)
       ∨ (OS.path_exists date_folder s = false
          ∧ OS.makedirs date_folder counted = (Ok tt, sm)))
  else dest_dir = [destination_folder] ∧ sm = counted.

(** All the ways one pass through the loop body can end. *)
Inductive entry_outcome (directory : string) (organize_by_date copy : bool)
    (filename : string) (s : state) : result unit → state → Prop :=
| outcome_passed_over :
    passed_over directory filename s →
    entry_outcome directory organize_by_date copy filename s (Ok tt) s
| outcome_filter_raised e :
    ¬ passed_over directory filename s →
    is_excluded_in (excluded_patterns s) filename = Raise e →
    entry_outcome directory organize_by_date copy filename s (Raise e) s
| outcome_excluded :
    ¬ passed_over directory filename s →
    is_excluded_in (excluded_patterns s) filename = Ok true →
    entry_outcome directory organize_by_date copy filename s (Ok tt)
      (logging (InfoSkippedExcluded filename)
               (set_stats (skipped_incr (stats s)) s))
| outcome_vanished :
    ¬ passed_over directory filename s →
    is_excluded_in (excluded_patterns s) filename = Ok false →
    fs s !! Py.join directory filename = None →
    entry_outcome directory organize_by_date copy filename s
      (Raise FileNotFoundError) (set_stats (total_incr (stats s)) s)
| outcome_date_folder_failed data mtime e sm :
    ¬ passed_over directory filename s →
    is_excluded_in (excluded_patterns s) filename = Ok false →
    fs s !! Py.join directory filename = Some (File data mtime) →
    organize_by_date = true →
    OS.makedirs
      (Py.join_all directory [classify (file_types s) filename; strftime_ymd mtime])
      (set_stats (size_add (String.length data) (total_incr (stats s))) s)
    = (Raise e, sm) →
    entry_outcome directory organize_by_date copy filename s (Raise e) sm
| outcome_transferred data mtime sm dest_dir :
    ¬ passed_over directory filename s →
    is_excluded_in (excluded_patterns s) filename = Ok false →
    fs s !! Py.join directory filename = Some (File data mtime) →
    prepared directory filename organize_by_date data mtime s sm dest_dir →
    Py.join directory filename ∉ locked s →
    let final := resolve_conflict sm dest_dir directory filename
                   (Py.join_all directory (dest_dir ++ [filename])) in
    entry_outcome directory organize_by_date copy filename s (Ok tt)
      (set_stats (organized_incr (classify (file_types s) filename) (stats sm))
         (set_operation_history
            (operation_history sm
             ++ [mkOperation (if copy then "copy" else "move")
                   (Py.join directory filename) final])
            (logging (if copy then InfoCopied filename final
                      else InfoMoved filename final)
               (set_fs (<[final := File data mtime]>
                          (if copy then fs sm
                           else delete (Py.join directory filename) (fs sm)))
                       sm))))
| outcome_transfer_failed data mtime sm dest_dir :
    ¬ passed_over directory filename s →
    is_excluded_in (excluded_patterns s) filename = Ok false →
    fs s !! Py.join directory filename = Some (File data mtime) →
    prepared directory filename organize_by_date data mtime s sm dest_dir →
    Py.join directory filename ∈ locked s →
    entry_outcome directory organize_by_date copy filename s (Ok tt)
      (logging (ErrorOrganizing filename PermissionError)
               (set_stats (skipped_incr (stats sm)) sm)).

(** What holds of the last operation a moving run has recorded so far:
    the file it took from [source], as the directory listing found it
    ([listed]), is at [destination]. *)
Definition last_move_ok (directory : string) (organize_by_date : bool)
    (listed : gmap string node) (s1 : state) (op : operation) : Prop :=
  ∃ filename data mtime,
    op_operation op = "move"
    ∧ op_source op = Py.join directory filename
    ∧ listed !! op_source op = Some (File data mtime)
    ∧ fs s1 !! op_destination op = Some (File data mtime)
    ∧ (organize_by_date = false → fs s1 !! op_source op = None).

Definition moving_run_inv (directory : string) (organize_by_date : bool)
    (s sF : state) (rest : list string) (s1 : state) : Prop :=
  NoDup rest
  ∧ (∀ f, f ∈ rest →
       is_Some (fs sF !! Py.join directory f)
       ∧ Py.startswith f "/" = false
       ∧ fs s1 !! Py.join directory f = fs sF !! Py.join directory f)
  ∧ ∃ ops, operation_history s1 = operation_history s ++ ops
           ∧ ∀ op, last ops = Some op →
               last_move_ok directory organize_by_date (fs sF) s1 op.

End Outcomes.


(** ** Reading the log and the statistics *)





(** A directory with three files, as in the scenario of the specification,
    and one in which the process may not touch [b.txt]. *)
Definition three_files : state :=
  new_organizer [("/d", Dir); ("/d/a.jpg", File "aaaa" 1741910400);
                 ("/d/b.txt", File "bb" 0); ("/d/c.unknownext", File "c" 0)] [].

Definition three_files_one_locked : state :=
  new_organizer [("/d", Dir); ("/d/a.jpg", File "aaaa" 1741910400);
                 ("/d/b.txt", File "bb" 0); ("/d/c.unknownext", File "c" 0)]
                ["/d/b.txt"].


(** The pattern of the specification's scenario is installed and the
    directory holds a hidden file. *)
Definition hidden_file : state :=
  set_excluded_patterns ["^\."]
    (new_organizer [("/d", Dir); ("/d/.hidden", File "h" 0);
                    ("/d/visible.txt", File "v" 0)] []).

(** ** Relations used in the proofs about whole runs *)

(** The operations recorded since the listing: one for each file counted
    as organised, each tagged with the mode of the run, each taken from a
    different listed name that the loop has already passed and that was a
    file when the directory was listed ([sF]); the names still to come
    ([rest]) are as they were listed. *)
Definition records_inv (directory : string) (copy : bool) (sF : state)
    (names rest : list string) (s1 : state) : Prop :=
  (∀ f, f ∈ rest → fs s1 !! Py.join directory f = fs sF !! Py.join directory f)
  ∧ ∃ ops,
      operation_history s1 = operation_history sF ++ ops
      ∧ length ops + organized_files (stats sF) = organized_files (stats s1)
      ∧ NoDup (op_source <$> ops)
      ∧ ∀ op, op ∈ ops →
          op_operation op = (if copy then "copy" else "move")
          ∧ ∃ f data mtime,
              f ∈ names ∧ (f ∉ rest)
              ∧ op_source op = Py.join directory f
              ∧ fs sF !! op_source op = Some (File data mtime).

(** ** Further states used in examples *)

(** A directory organised before: nothing but a folder is left in it. *)
Definition organised_before : state :=
  new_organizer [("/d", Dir); ("/d/Photos", Dir);
                 ("/d/Photos/a.jpg", File "aaaa" 1)] [].

(** ** More of Python's [str] and [int] *)

Module PyStr.

(** [s.split(sep)] for a separator of one character. *)
Fixpoint split (sep : ascii) (s : string) : list string :=
  match s with
  | EmptyString => [""]
  | String c s' =>
      if Ascii.eqb c sep then "" :: split sep s'
      else match split sep s' with
           | word :: words => String c word :: words
           | [] => [String c ""]
           end
  end.

(** [s.lstrip(ch)] for one character. *)
Fixpoint lstrip_char (ch : ascii) (s : string) : string :=
  match s with
  | String c s' => if Ascii.eqb c ch then lstrip_char ch s' else s
  | EmptyString => EmptyString
  end.

(** [sep.join(items)] *)
Fixpoint join (sep : string) (items : list string) : string :=
  match items with
  | [] => ""
  | [item] => item
  | item :: rest => item +:+ sep +:+ join sep rest
  end.

(** [ch in s] for one character. *)
Fixpoint contains (ch : ascii) (s : string) : bool :=
  match s with
  | EmptyString => false
  | String c s' => Ascii.eqb c ch || contains ch s'
  end.

Definition digit_of (c : ascii) : option Z :=
  let n := nat_of_ascii c in
  if (48 <=? n) && (n <=? 57) then Some (Z.of_nat (n - 48)) else None.

(** Decimal digits, single underscores allowed between them. *)
Fixpoint int_digits (acc : Z) (after_digit : bool) (s : string) : option Z :=
  match s with
  | EmptyString => if after_digit then Some acc else None
  | String c s' =>
      match digit_of c with
      | Some d => int_digits (10 * acc + d) true s'
      | None =>
          if Ascii.eqb c "_" && after_digit then int_digits acc false s' else None
      end
  end.

(** [int(s)]; [None] stands for [ValueError]. *)
Definition int (s : string) : option Z :=
  match Py.strip s with
  | String "-" digits => Z.opp <$> int_digits 0 false digits
  | String "+" digits => int_digits 0 false digits
  | digits => int_digits 0 false digits
  end.

End PyStr.

(** ** Python dictionaries with string keys, in insertion order *)

(** [d[key] = value]: an existing key keeps its place. *)
Fixpoint dict_set {V} (key : string) (value : V) (d : list (string * V))
  : list (string * V) :=
  match d with
  | [] => [(key, value)]
  | (k, v) :: rest =>
      if String.eqb k key then (k, value) :: rest
      else (k, v) :: dict_set key value rest
  end.

(** [del d[key]] for a key that is present. *)
Fixpoint dict_del {V} (key : string) (d : list (string * V)) : list (string * V) :=
  match d with
  | [] => []
  | (k, v) :: rest =>
      if String.eqb k key then rest else (k, v) :: dict_del key rest
  end.

(** [key in d] *)
Definition dict_has {V} (key : string) (d : list (string * V)) : bool :=
  existsb (String.eqb key) d.*1.

Definition set_file_types (v : list (string * list string)) (s : state) : state :=
  mkState v (excluded_patterns s) (operation_history s) (stats s) (fs s)
          (locked s) (config_file s) (config_writable s) (log s).

(** ** Construction of a [FileOrganizer] *)

(** What [json.load] makes of [organizer_config.json]: it raises, or
    gives a dictionary in which each of the two keys may be missing. *)
Inductive config_json :=
| Malformed
| Parsed (file_types_key : option (list (string * list string)))
         (excluded_patterns_key : option (list string)).

(** The file as [save_config] leaves it holds both keys. *)
Definition read_config (s : state) : option config_json :=
  (λ saved, Parsed (Some saved.1) (Some saved.2)) <$> config_file s.

(** [load_config], lines 51-67.  What the file holds ([None] when there
    is no file) is an argument; the line written to the log is left
    out. *)
Definition load_config (contents : option config_json)
  : M (list (string * list string)) :=
  match contents with
  | Some (Parsed file_types_key excluded_patterns_key) =>
      match excluded_patterns_key with
      | Some patterns => modify (set_excluded_patterns patterns)
      | None => ret tt
      end ;;
      ret (default default_file_types file_types_key)
  | Some Malformed => ret default_file_types
  | None => ret default_file_types
  end.

(** [__init__], lines 22-49: the fields of the object are assigned in the
    order of the source. *)
Definition __init__ (contents : option config_json) : M unit :=
  let* loaded := load_config contents in
  modify (set_file_types loaded) ;;
  modify (set_operation_history []) ;;
  modify (set_excluded_patterns []) ;;
  modify (set_stats (mkStats 0 0 0 ∅ 0)).

(** The answer [prompt_yes_no] (lines 581-589) makes of the line typed. *)
Definition prompt_yes_no (typed : string) (default : bool) : bool :=
  let response := Py.lower (Py.strip typed) in
  if String.eqb response "" then default else Py.startswith response "y".

(** The four places that read a list of extensions (lines 449-452, 479-482,
    877-880, 934-937) do it with the same two lines. *)
Definition parse_extensions (extensions_input : string) : list string :=
  let extensions := Py.strip <$> PyStr.split "," extensions_input in
  (λ ext, "." +:+ PyStr.lstrip_char "." ext)
    <$> filter (λ ext, ext ≠ "") extensions.

(** An extension as [parse_extensions] leaves it: a dot, then text that
    does not start with a dot; no comma; no blank at either end. *)
Definition normal_extension (ext : string) : bool :=
  match ext with
  | String "." rest =>
      String.eqb (PyStr.lstrip_char "." rest) rest
      && String.eqb (Py.strip ext) ext
      && negb (PyStr.contains "," ext)
  | _ => false
  end.

(** ** Class [FileOrganizerCLI]: the settings menus *)

Module CLI.
Section CLI.
Context {env : Env}.

(** [add_file_type_category], lines 430-455; the two lines typed are
    arguments, what is printed is left out. *)
Definition add_file_type_category (typed_name typed_extensions : string) : M unit :=
  let category := Py.strip typed_name in
  if String.eqb category "" then ret tt
  else
    let* s := get_state in
    if dict_has category (file_types s) then ret tt
    else
      let extensions_input := Py.strip typed_extensions in
      if String.eqb extensions_input "" then ret tt
      else
        modify (λ s, set_file_types
                       (dict_set category (parse_extensions extensions_input)
                                 (file_types s)) s).

(** [edit_file_type_category], lines 457-490 *)
Definition edit_file_type_category (typed_number typed_extensions : string) : M unit :=
  let* s := get_state in
  let categories := (file_types s).*1 in
  match PyStr.int (Py.strip typed_number) with
  | None => ret tt
  | Some number =>
      let index := (number - 1)%Z in
      if (0 <=? index)%Z && (index <? Z.of_nat (length categories))%Z then
        match categories !! Z.to_nat index with
        | Some category =>
            let extensions_input := Py.strip typed_extensions in
            if String.eqb extensions_input "" then ret tt
            else
              modify (λ s, set_file_types
                             (dict_set category (parse_extensions extensions_input)
                                       (file_types s)) s)
        | None => ret tt
        end
      else ret tt
  end.

(** [delete_file_type_category], lines 492-510 *)
Definition delete_file_type_category (typed_number typed_answer : string) : M unit :=
  let* s := get_state in
  let categories := (file_types s).*1 in
  match PyStr.int (Py.strip typed_number) with
  | None => ret tt
  | Some number =>
      let index := (number - 1)%Z in
      if (0 <=? index)%Z && (index <? Z.of_nat (length categories))%Z then
        match categories !! Z.to_nat index with
        | Some category =>
            if prompt_yes_no typed_answer false
            then modify (λ s, set_file_types (dict_del category (file_types s)) s)
            else ret tt
        | None => ret tt
        end
      else ret tt
  end.

(** [add_exclude_pattern] of the menu, lines 545-556 *)
Definition add_exclude_pattern (typed : string) : M unit :=
  let pattern := Py.strip typed in
  if String.eqb pattern "" then ret tt
  else let* _ := add_exclude_pattern pattern in ret tt.

(** [delete_exclude_pattern], lines 558-579 *)
Definition delete_exclude_pattern (typed_number typed_answer : string) : M unit :=
  let* s := get_state in
  if bool_decide (excluded_patterns s = []) then ret tt
  else
    match PyStr.int (Py.strip typed_number) with
    | None => ret tt
    | Some number =>
        let index := (number - 1)%Z in
        if (0 <=? index)%Z
           && (index <? Z.of_nat (length (excluded_patterns s)))%Z then
          if prompt_yes_no typed_answer false then
            modify (λ s, set_excluded_patterns
                           (delete (Z.to_nat index) (excluded_patterns s)) s) ;;
            save_config
          else ret tt
        else ret tt
    end.


End CLI.
End CLI.

(** ** Class [FileOrganizerGUI]: the settings tab *)

Module GUI.

(** What [create_settings_tab] (line 715) puts into the text field of a
    category, as [entry.get("1.0", tk.END)] returns it: a text widget ends
    its contents with a newline. *)
Definition entry_text (extensions : list string) : string :=
  PyStr.join ", " extensions +:+ nl.

(** [add_category], lines 863-889; the contents of the two fields are
    arguments. *)
Definition add_category (new_category new_extensions : string) : M unit :=
  let category := Py.strip new_category in
  let extensions_text := Py.strip new_extensions in
  if String.eqb category "" then ret tt
  else if String.eqb extensions_text "" then ret tt
  else
    modify (λ s, set_file_types
                   (dict_set category (parse_extensions extensions_text)
                             (file_types s)) s).

(** [delete_category], lines 856-861 *)
Definition delete_category (category : string) (confirmed : bool) : M unit :=
  if confirmed then
    let* s := get_state in
    if dict_has category (file_types s)
    then modify (λ s, set_file_types (dict_del category (file_types s)) s)
    else ret tt
  else ret tt.

(** [save_settings], lines 929-941; [file_type_entries] holds, for each
    category shown, the contents of its text field. *)
Definition save_settings (file_type_entries : list (string * string)) : M unit :=
  for_each file_type_entries
    (λ '(category, text),
       let extensions_text := Py.strip text in
       modify (λ s, set_file_types
                      (dict_set category (parse_extensions extensions_text)
                                (file_types s)) s)) ;;
  save_config.

Section Organize.
Context {env : Env}.

(** [start_organizing] with [run_organization], lines 799-838.  The field
    of the directory, the two check boxes and the answer to the
    confirmation are arguments; the run is made on a thread of its own and
    its outcome is only shown. *)
Definition start_organizing (directory : string)
    (organize_by_date copy_instead_of_move confirmed : bool) : M unit :=
  let* s := get_state in
  if String.eqb directory "" || negb (OS.path_isdir directory s) then ret tt
  else if negb copy_instead_of_move && negb confirmed then ret tt
  else
    try_except
      (organize_files directory organize_by_date copy_instead_of_move ;; ret tt)
      (λ _, true)
      (λ _, ret tt).

End Organize.

End GUI.

(** ** The non-interactive command line (lines 978-1020) *)

Section Main.
Context {env : Env}.


End Main.

(** ** The first version of the script ([src/unnamed/part_000], lines 1-38) *)

Module Simple.

Definition file_types : list (string * list string) :=
  [("Videos", [".mp4"; ".mkv"; ".flv"; ".avi"; ".mov"]);
   ("Photos", [".jpg"; ".jpeg"; ".png"; ".cr2"; ".gif"; ".bmp"; ".tiff"]);
   ("Music", [".mp3"; ".wav"; ".aac"; ".flac"; ".ogg"]);
   ("Documents", [".pdf"; ".doc"; ".docx"; ".xls"; ".xlsx"; ".ppt"; ".pptx"; ".txt"])].

(** Lines 29-32: the file goes to the first folder one of whose extensions
    ends its lower-cased name; there is no other case. *)
Fixpoint move_to_first_match (items : list (string * list string))
    (directory filename file_path : string) : M unit :=
  match items with
  | [] => ret tt
  | (folder, extensions) :: rest =>
      if existsb (λ ext, Py.endswith (Py.lower filename) ext) extensions
      then Shutil.move file_path (Py.join_all directory [folder; filename])
      else move_to_first_match rest directory filename file_path
  end.

(** Lines 22-32, the body of [for filename in os.listdir(directory)]. *)
Definition organize_entry (directory filename : string) : M unit :=
  let file_path := Py.join directory filename in
  let* s := get_state in
  if OS.path_isdir file_path s then ret tt
  else move_to_first_match file_types directory filename file_path.

(** [organize_files(directory)], lines 14-32 *)
Definition organize_files (directory : string) : M unit :=
  for_each file_types.*1
    (λ folder,
       let folder_path := Py.join directory folder in
       let* s := get_state in
       if OS.path_exists folder_path s then ret tt else OS.makedirs folder_path) ;;
  let* names := OS.listdir directory in
  for_each names (organize_entry directory).

End Simple.

(** ** Relations used in the proofs about undoing a run *)



(** What holds while a copying run goes through the names [rest] of the
    listing: every entry listed is still there, and the copy recorded last
    is at its destination, a path that was free. *)
Definition copies_inv (directory : string) (sF : state) (rest : list string)
    (s1 : state) : Prop :=
  (∀ f, f ∈ rest → is_Some (fs sF !! Py.join directory f))
  ∧ (∀ p n, fs sF !! p = Some n → fs s1 !! p = Some n)
  ∧ ∃ ops,
      operation_history s1 = operation_history sF ++ ops
      ∧ ∀ op, last ops = Some op →
          ∃ f data mtime,
            op_operation op = "copy"
            ∧ op_source op = Py.join directory f
            ∧ fs sF !! op_source op = Some (File data mtime)
            ∧ fs s1 !! op_destination op = Some (File data mtime)
            ∧ fs sF !! op_destination op = None.

(** * Properties *)

(** ** Strings *)

Lemma str_app_cons c (a b : string) : String c a +:+ b = String c (a +:+ b).
Proof. reflexivity. Qed.

Lemma str_app_nil_l (a : string) : "" +:+ a = a.
Proof. reflexivity. Qed.

Lemma str_app_nil_r (a : string) : a +:+ "" = a.
Proof. induction a as [|c a IH]; [done|]. by rewrite str_app_cons, IH. Qed.

Lemma str_app_assoc (a b c : string) : (a +:+ b) +:+ c = a +:+ (b +:+ c).
Proof. induction a as [|x a IH]; [done|]. by rewrite !str_app_cons, IH. Qed.

Lemma str_app_length (a b : string) :
  String.length (a +:+ b) = String.length a + String.length b.
Proof. induction a as [|x a IH]; [done|]. rewrite str_app_cons. simpl. by rewrite IH. Qed.

Lemma str_to_list_app (a b : string) :
  list_ascii_of_string (a +:+ b) = list_ascii_of_string a ++ list_ascii_of_string b.
Proof. induction a as [|x a IH]; [done|]. rewrite str_app_cons. simpl. by rewrite IH. Qed.

Lemma str_to_list_inj (a b : string) :
  list_ascii_of_string a = list_ascii_of_string b → a = b.
Proof.
  intros E. rewrite <- (string_of_list_ascii_of_string a),
    <- (string_of_list_ascii_of_string b). by rewrite E.
Qed.

Lemma str_app_inv_tail (a b c : string) : a +:+ c = b +:+ c → a = b.
Proof.
  intros E. apply str_to_list_inj.
  apply (f_equal list_ascii_of_string) in E. rewrite !str_to_list_app in E.
  by apply app_inv_tail in E.
Qed.

Lemma str_app_inv_head (a b c : string) : a +:+ b = a +:+ c → b = c.
Proof. apply (inj (String.app a)). Qed.

Lemma endswith_spec (s suf : string) :
  Py.endswith s suf = true ↔ ∃ pre, s = pre +:+ suf.
Proof.
  induction s as [|c s IH]; cbn [Py.endswith].
  - rewrite orb_false_r, String.eqb_eq. split.
    + intros <-. by exists "".
    + intros [[|] E]; [done|]. by rewrite str_app_cons in E.
  - rewrite orb_true_iff, String.eqb_eq, IH. split.
    + intros [<-|[pre ->]]; [by exists ""|]. by exists (String c pre).
    + intros [[|x pre] E]; [by left|].
      rewrite str_app_cons in E. injection E as -> ->. right. by exists pre.
Qed.

Lemma endswith_false (s suf : string) :
  Py.endswith s suf = false ↔ ∀ pre, s ≠ pre +:+ suf.
Proof.
  rewrite <- not_true_iff_false, endswith_spec. split.
  - intros Hn pre E. apply Hn. by exists pre.
  - intros Hn [pre E]. by apply (Hn pre).
Qed.

(** ** Classifier *)


Lemma first_matching_folder_Some (R : list (string * list string)) f c :
  first_matching_folder R f = Some c → c ∈ R.*1.
Proof.
  induction R as [|[c' exts] R IH]; simpl; [done|].
  destruct (existsb _ exts).
  - intros [= ->]. by left.
  - intros E. right. by apply IH.
Qed.




(** ** Summary text *)



(** ** One directory entry *)

Section Entry.
Context {env : Env}.

(** C9. An entry that is a directory, the running script or a [.log] file
    is passed over: the whole state, and so every field of the statistics,
    is as before. *)
Theorem passed_over_entry_changes_nothing
    (directory filename : string) (organize_by_date copy_instead_of_move : bool)
    (s : state) :
  OS.path_isdir (Py.join directory filename) s = true
  ∨ filename = script_name
  ∨ Py.endswith filename ".log" = true →
  organize_entry directory organize_by_date copy_instead_of_move filename s
  = (Ok tt, s)
  ∧ stats (organize_entry directory organize_by_date copy_instead_of_move
             filename s).2 = stats s.
Proof.
  intros Hskip.
  assert (organize_entry directory organize_by_date copy_instead_of_move filename s
          = (Ok tt, s)) as ->; [|done].
  unfold organize_entry, bind, get_state.
  destruct Hskip as [-> | [-> | ->]]; [done| |].
  - by rewrite String.eqb_refl, orb_true_r.
  - by rewrite orb_true_r.
Qed.

End Entry.

Section Exclusion.
Context {env : Env}.

Lemma is_excluded_in_valid (patterns : list string) (filename : string) :
  Forall (λ p, re_valid p = true) patterns →
  ∃ b, is_excluded_in patterns filename = Ok b
       ∧ (b = true ↔ ∃ p, p ∈ patterns ∧ re_found p filename = true).
Proof.
  induction patterns as [|p rest IH]; intros Hvalid; simpl.
  - exists false. split; [done|]. split; [done|].
    intros (p & Hin & _). by apply elem_of_nil in Hin.
  - apply Forall_cons in Hvalid as [Hp Hrest]. unfold re_search. rewrite Hp.
    destruct (re_found p filename) eqn:Hfound.
    + exists true. split; [done|]. split; [|done]. intros _. exists p. split; [by left|done].
    + destruct (IH Hrest) as (b & -> & Hb). exists b. split; [done|].
      rewrite Hb. split.
      * intros (q & Hin & Hq). exists q. split; [by right|done].
      * intros (q & Hin & Hq). apply elem_of_cons in Hin as [->|Hin]; [congruence|].
        by exists q.
Qed.

(** C5. With every stored pattern a valid one, [is_excluded] answers true
    exactly when some pattern is found somewhere in the file name.  A file
    it answers true for is counted in [skipped_files] and in nothing else:
    [total_files], [organized_files], [total_size] and the category counts
    keep their values, the file system is untouched and nothing is
    recorded for undo. *)
Theorem excluded_file_is_skipped
    (directory filename : string) (organize_by_date copy_instead_of_move : bool)
    (s : state) :
  Forall (λ p, re_valid p = true) (excluded_patterns s) →
  (∃ b, is_excluded filename s = (Ok b, s)
        ∧ (b = true ↔ ∃ p, p ∈ excluded_patterns s ∧ re_found p filename = true))
  ∧ (OS.path_isdir (Py.join directory filename) s = false →
     filename ≠ script_name →
     Py.endswith filename ".log" = false →
     (∃ p, p ∈ excluded_patterns s ∧ re_found p filename = true) →
     ∃ s', organize_entry directory organize_by_date copy_instead_of_move filename s
           = (Ok tt, s')
           ∧ skipped_files (stats s') = S (skipped_files (stats s))
           ∧ total_files (stats s') = total_files (stats s)
           ∧ organized_files (stats s') = organized_files (stats s)
           ∧ total_size (stats s') = total_size (stats s)
           ∧ categories (stats s') = categories (stats s)
           ∧ fs s' = fs s
           ∧ operation_history s' = operation_history s).
Proof.
  intros Hvalid.
  destruct (is_excluded_in_valid (excluded_patterns s) filename Hvalid)
    as (b & Hb & Hiff).
  split.
  - exists b. unfold is_excluded. by rewrite Hb.
  - intros Hdir Hscript Hlog Hmatch.
    apply Hiff in Hmatch as ->.
    apply String.eqb_neq in Hscript.
    unfold organize_entry, bind, get_state, is_excluded.
    rewrite Hdir, Hscript, Hlog. cbn [orb]. cbv beta. rewrite Hb.
    eexists. split; [reflexivity|]. done.
Qed.


End Exclusion.

(** ** Undo *)

Lemma undo_pop (h : list operation) (op : operation) (s : state) :
  operation_history s = h ++ [op] →
  last (operation_history s) = Some op ∧ removelast (operation_history s) = h.
Proof. intros ->. split; [apply last_snoc | apply removelast_last]. Qed.

Lemma move_onto (src dst : string) (n : node) (s : state) :
  fs s !! src = Some n → src ∉ locked s → fs s !! dst ≠ Some Dir →
  Shutil.move src dst s = (Ok tt, set_fs (<[dst := n]> (delete src (fs s))) s).
Proof.
  intros Hsrc Hfree Hdst. unfold Shutil.move, OS.path_isdir.
  rewrite bool_decide_eq_false_2 by done. rewrite Hsrc.
  by rewrite bool_decide_eq_false_2 by done.
Qed.

Lemma move_locked (src dst : string) (s : state) :
  src ∈ locked s → Shutil.move src dst s = (Raise PermissionError, s).
Proof. intros Hin. unfold Shutil.move. by rewrite bool_decide_eq_true_2. Qed.



Lemma path_exists_true (p : string) (s : state) :
  OS.path_exists p s = true ↔ is_Some (fs s !! p).
Proof. unfold OS.path_exists. apply bool_decide_eq_true. Qed.

Lemma path_exists_false (p : string) (s : state) :
  OS.path_exists p s = false ↔ fs s !! p = None.
Proof.
  unfold OS.path_exists. rewrite bool_decide_eq_false, eq_None_not_Some. done.
Qed.

(** Undoing a recorded move whose file is still at its destination. *)
Lemma undo_of_move_succeeds (s : state) (h : list operation) (op : operation)
    (n : node) :
  operation_history s = h ++ [op] →
  op_operation op = "move" →
  fs s !! op_destination op = Some n →
  op_destination op ∉ locked s →
  fs s !! op_source op ≠ Some Dir →
  undo_last_operation s
  = (Ok true,
     logging (InfoUndoneMove (op_destination op) (op_source op))
       (set_fs (<[op_source op := n]> (delete (op_destination op) (fs s)))
               (set_operation_history h s))).
Proof.
  intros Hhist Hmove Hdst Hfree Hsrc.
  destruct (undo_pop h op s Hhist) as [Hlast Hrest].
  unfold undo_last_operation, bind, get_state. rewrite Hlast, Hrest.
  unfold modify, try_except, bind, get_state, ret.
  apply String.eqb_eq in Hmove. rewrite Hmove.
  assert (OS.path_exists (op_destination op) (set_operation_history h s) = true)
    as -> by (apply path_exists_true; by eexists).
  by rewrite (move_onto _ _ n).
Qed.


(** ** Paths *)

Lemma prefix_nil (s : string) : String.prefix "" s = true.
Proof. by destruct s. Qed.

Lemma startswith_sep_app (a b : string) :
  a ≠ "" → Py.startswith (a +:+ b) "/" = Py.startswith a "/".
Proof.
  destruct a as [|c a]; [done|]. intros _. rewrite str_app_cons.
  unfold Py.startswith. cbn [String.prefix].
  destruct (ascii_dec "/" c); [|done]. by rewrite !prefix_nil.
Qed.

Lemma join_all_snoc (d : string) (ps : list string) (x : string) :
  Py.join_all d (ps ++ [x]) = Py.join (Py.join_all d ps) x.
Proof. unfold Py.join_all. by rewrite foldl_app. Qed.

(** Joining onto the same directory keeps two names apart, when both or
    neither of them starts with a separator. *)
Lemma join_inj (a b1 b2 : string) :
  Py.startswith b1 "/" = Py.startswith b2 "/" →
  Py.join a b1 = Py.join a b2 → b1 = b2.
Proof.
  unfold Py.join. intros <-. destruct (Py.startswith b1 "/"); [done|].
  destruct (_ || _).
  - apply str_app_inv_head.
  - intros E%str_app_inv_head. by apply str_app_inv_head in E.
Qed.

Lemma numbered_name_inj (base extension : string) (j k : nat) :
  base +:+ "_" +:+ pretty j +:+ extension = base +:+ "_" +:+ pretty k +:+ extension →
  j = k.
Proof.
  intros E%str_app_inv_head. apply str_app_inv_head in E.
  apply str_app_inv_tail in E. by apply (inj pretty) in E.
Qed.

Lemma numbered_name_startswith (base extension : string) (j k : nat) :
  Py.startswith (base +:+ "_" +:+ pretty j +:+ extension) "/"
  = Py.startswith (base +:+ "_" +:+ pretty k +:+ extension) "/".
Proof.
  destruct base as [|c base]; [done|]. rewrite !str_app_cons.
  unfold Py.startswith. cbn [String.prefix].
  destruct (ascii_dec "/" c); [|done]. by rewrite !prefix_nil.
Qed.

Lemma candidate_inj (directory : string) (dest_dir : list string)
    (base extension : string) (j k : nat) :
  Py.join_all directory (dest_dir ++ [base +:+ "_" +:+ pretty j +:+ extension])
  = Py.join_all directory (dest_dir ++ [base +:+ "_" +:+ pretty k +:+ extension]) →
  j = k.
Proof.
  rewrite !join_all_snoc. intros E.
  apply join_inj in E; [by apply numbered_name_inj in E|].
  apply numbered_name_startswith.
Qed.

(** ** Conflict resolution *)

(** What the loop returns is free, and it is either the path it started from
    or the candidate with the least counter, from [counter] on, that is
    free. *)
Lemma free_name_loop_Some (fuel : nat) (s : state) (candidate : nat → string)
    (destination_path : string) (counter : nat) (final : string) :
  free_name_loop fuel s candidate destination_path counter = Some final →
  OS.path_exists final s = false
  ∧ ((OS.path_exists destination_path s = false ∧ final = destination_path)
     ∨ (OS.path_exists destination_path s = true
        ∧ ∃ k, counter ≤ k ∧ final = candidate k
               ∧ ∀ j, counter ≤ j < k → OS.path_exists (candidate j) s = true)).
Proof.
  revert destination_path counter.
  induction fuel as [|fuel IH]; intros p c; simpl;
    destruct (OS.path_exists p s) eqn:Hp; try done.
  - intros [= <-]. split; [done|]. by left.
  - intros Hloop. destruct (IH _ _ Hloop) as [Hfree Hcase]. split; [done|]. right.
    split; [done|]. destruct Hcase as [[Hc ->] | [Hc (k & Hk & -> & Hbelow)]].
    + exists c. split; [lia|]. split; [done|]. intros j Hj. lia.
    + exists k. split; [lia|]. split; [done|]. intros j Hj.
      destruct (decide (j = c)) as [->|]; [done|]. apply Hbelow. lia.
  - intros [= <-]. split; [done|]. by left.
Qed.

Lemma free_name_loop_finds (fuel : nat) (s : state) (candidate : nat → string)
    (destination_path : string) (counter : nat) :
  (∃ k, counter ≤ k < counter + fuel ∧ OS.path_exists (candidate k) s = false) →
  is_Some (free_name_loop fuel s candidate destination_path counter).
Proof.
  revert destination_path counter.
  induction fuel as [|fuel IH]; intros p c (k & Hk & Hfree); simpl;
    destruct (OS.path_exists p s) eqn:Hp; try done; [lia|].
  destruct (decide (k = c)) as [->|Hne].
  - destruct fuel; simpl; by rewrite Hfree.
  - apply IH. exists k. split; [lia|done].
Qed.

(** Among more candidates than there are paths, one is free. *)
Lemma some_candidate_free (s : state) (candidate : nat → string) :
  Inj (=) (=) candidate →
  ∃ k, 1 ≤ k < 1 + S (size (fs s)) ∧ OS.path_exists (candidate k) s = false.
Proof.
  intros Hinj.
  destruct (decide (Exists (λ k, fs s !! candidate k = None)
                           (seq 1 (S (size (fs s)))))) as [Hex|Hall].
  - apply Exists_exists in Hex as (k & Hin & Hk).
    apply elem_of_seq in Hin. exists k. split; [lia|].
    by apply path_exists_false.
  - exfalso. apply not_Exists_Forall in Hall; [|intros k; apply _].
    rewrite Forall_forall in Hall.
    assert (Hsub : list_to_set (candidate <$> seq 1 (S (size (fs s))))
                   ⊆@{gset string} dom (fs s)).
    { intros p Hp. apply elem_of_list_to_set, list_elem_of_fmap in Hp
        as (k & -> & Hk). apply elem_of_dom. specialize (Hall k Hk). simpl in Hall.
      by destruct (fs s !! candidate k). }
    apply subseteq_size in Hsub.
    rewrite size_list_to_set, length_fmap, length_seq, size_dom in Hsub; [lia|].
    apply NoDup_fmap_2; [done|]. apply NoDup_seq.
Qed.

(** The renaming loop always ends with the fuel [resolve_conflict] gives it. *)
Lemma free_name_loop_total (s : state) (directory : string) (dest_dir : list string)
    (base extension destination_path : string) :
  is_Some (free_name_loop (S (size (fs s))) s
             (λ counter, Py.join_all directory
                (dest_dir ++ [base +:+ "_" +:+ pretty counter +:+ extension]))
             destination_path 1).
Proof.
  apply free_name_loop_finds, some_candidate_free.
  intros j k. apply candidate_inj.
Qed.

Lemma substring_whole (p : string) : String.substring 0 (String.length p) p = p.
Proof. induction p as [|c p IH]; [done|]. simpl. by rewrite IH. Qed.




(** The final destination of a transfer (lines 167-179): free in every case;
    the nominal path when that is free; otherwise the numbered name with the
    least counter, from 1, whose path is free. *)
Lemma resolve_conflict_spec (s : state) (dest_dir : list string)
    (directory filename destination_path : string) :
  let final := resolve_conflict s dest_dir directory filename destination_path in
  let candidate counter :=
    Py.join_all directory
      (dest_dir ++ [(Py.splitext filename).1 +:+ "_" +:+ pretty counter
                    +:+ (Py.splitext filename).2]) in
  OS.path_exists final s = false
  ∧ (OS.path_exists destination_path s = false → final = destination_path)
  ∧ (OS.path_exists destination_path s = true →
     ∃ k, 1 ≤ k ∧ final = candidate k
          ∧ ∀ j, 1 ≤ j < k → OS.path_exists (candidate j) s = true).
Proof.
  intros final candidate. subst final. unfold resolve_conflict.
  destruct (OS.path_exists destination_path s) eqn:Hnominal; [|done].
  destruct (Py.splitext filename) as [base extension] eqn:Hsplit.
  destruct (free_name_loop_total s directory dest_dir base extension destination_path)
    as [final Hloop].
  rewrite Hloop. apply free_name_loop_Some in Hloop as [Hfree Hcase].
  split; [done|]. split; [done|]. intros _.
  destruct Hcase as [[Hc _] | [_ Hk]]; [congruence|]. done.
Qed.

(** ** Directory creation *)

Lemma dirs_added_refl (s : state) : dirs_added s s.
Proof. split; [by left|]. by destruct s. Qed.

Lemma dirs_added_trans (s1 s2 s3 : state) :
  dirs_added s1 s2 → dirs_added s2 s3 → dirs_added s1 s3.
Proof.
  intros [H12 E12] [H23 E23]. split.
  - intros p. destruct (H23 p) as [->|[Hn ->]]; [apply H12|].
    right. split; [|done]. destruct (H12 p) as [<-|[? ?]]; [done|congruence].
  - rewrite E23 at 1. rewrite E12. done.
Qed.

Lemma dirs_added_insert (s : state) (p : string) :
  fs s !! p = None → dirs_added s (set_fs (<[p := Dir]> (fs s)) s).
Proof.
  intros Hfree. split; [|done]. intros q. simpl.
  destruct (decide (p = q)) as [<-|Hne].
  - right. by rewrite lookup_insert_eq.
  - left. by rewrite lookup_insert_ne.
Qed.

Lemma dirs_added_keeps (s s' : state) (p : string) (n : node) :
  dirs_added s s' → fs s !! p = Some n → fs s' !! p = Some n.
Proof. intros [Hfs _] Hp. destruct (Hfs p) as [->|[? ?]]; congruence. Qed.

Lemma dirs_added_file (s s' : state) (p data : string) (mtime : Z) :
  dirs_added s s' → fs s' !! p = Some (File data mtime) →
  fs s !! p = Some (File data mtime).
Proof. intros [Hfs _] Hp. destruct (Hfs p) as [<-|[? ?]]; congruence. Qed.

Lemma mkdir_if_missing_adds (p : string) (s s' : state) (r : result unit) :
  OS.mkdir_if_missing p s = (r, s') → dirs_added s s'.
Proof.
  unfold OS.mkdir_if_missing. destruct (fs s !! p) as [[]|] eqn:Hp;
    intros [= <- <-]; try apply dirs_added_refl.
  by apply dirs_added_insert.
Qed.

Lemma for_each_adds {A} (body : A → M unit) (xs : list A) :
  (∀ x s s' r, body x s = (r, s') → dirs_added s s') →
  ∀ s s' r, for_each xs body s = (r, s') → dirs_added s s'.
Proof.
  intros Hbody. induction xs as [|x xs IH]; intros s s' r; simpl.
  - intros [= <- <-]. apply dirs_added_refl.
  - unfold bind. destruct (body x s) as [[[]|e] s1] eqn:Hx.
    + intros Hrest. eapply dirs_added_trans; [by eapply Hbody|by eapply IH].
    + intros [= <- <-]. by eapply Hbody.
Qed.

Lemma makedirs_adds (p : string) (s s' : state) (r : result unit) :
  OS.makedirs p s = (r, s') → dirs_added s s'.
Proof.
  unfold OS.makedirs, bind.
  destruct (for_each (OS.ancestors p) OS.mkdir_if_missing s) as [[[]|e] s1] eqn:Hanc.
  - apply for_each_adds in Hanc; [|apply mkdir_if_missing_adds].
    destruct (fs s1 !! p) eqn:Hp; intros [= <- <-]; [done|].
    eapply dirs_added_trans; [done|]. by apply dirs_added_insert.
  - intros [= <- <-]. eapply for_each_adds; [|done]. apply mkdir_if_missing_adds.
Qed.

Lemma ensure_folder_adds (directory folder : string) (s s' : state) (r : result unit) :
  ensure_folder directory folder s = (r, s') → dirs_added s s'.
Proof.
  unfold ensure_folder, bind, get_state.
  destruct (OS.path_exists _ s).
  - intros [= <- <-]. apply dirs_added_refl.
  - apply makedirs_adds.
Qed.

(** ** The loop body, case by case *)

Lemma copy2_onto (src dst data : string) (mtime : Z) (s : state) :
  fs s !! src = Some (File data mtime) → src ∉ locked s → fs s !! dst = None →
  Shutil.copy2 src dst s = (Ok tt, set_fs (<[dst := File data mtime]> (fs s)) s).
Proof.
  intros Hsrc Hfree Hdst. unfold Shutil.copy2, OS.path_isdir. cbv zeta.
  rewrite !(bool_decide_eq_false_2 (fs s !! dst = Some Dir)) by congruence.
  rewrite bool_decide_eq_false_2 by done. rewrite Hsrc.
  destruct (String.eqb_spec src dst) as [->|_]; [congruence|done].
Qed.

Lemma copy2_locked (src dst : string) (s : state) :
  src ∈ locked s → Shutil.copy2 src dst s = (Raise PermissionError, s).
Proof. intros Hin. unfold Shutil.copy2. by rewrite bool_decide_eq_true_2. Qed.

Section Body.
Context {env : Env}.

Lemma passed_over_test (directory filename : string) (s : state) :
  OS.path_isdir (Py.join directory filename) s
  || String.eqb filename script_name || Py.endswith filename ".log" = true
  ↔ passed_over directory filename s.
Proof.
  unfold passed_over. rewrite !orb_true_iff, String.eqb_eq. tauto.
Qed.

Lemma prepared_state (directory filename : string) (organize_by_date : bool)
    (data : string) (mtime : Z) (s sm : state) (dest_dir : list string) :
  prepared directory filename organize_by_date data mtime s sm dest_dir →
  dirs_added (set_stats (size_add (String.length data) (total_incr (stats s))) s) sm.
Proof.
  unfold prepared. destruct organize_by_date.
  - intros [_ [[_ ->]|[_ Hmk]]]; [apply dirs_added_refl|by eapply makedirs_adds].
  - intros [_ ->]. apply dirs_added_refl.
Qed.

(** The transfer and what follows it (lines 159-197), from a prepared
    state. *)
Lemma guarded_transfer (directory filename : string) (copy : bool)
    (data : string) (mtime : Z) (sm : state) (dest_dir : list string)
    (destination_folder : string) (handler : exn → M unit) :
  fs sm !! Py.join directory filename = Some (File data mtime) →
  let file_path := Py.join directory filename in
  let final := resolve_conflict sm dest_dir directory filename
                 (Py.join_all directory (dest_dir ++ [filename])) in
  try_except
    (transfer directory filename file_path destination_folder dest_dir
              (Py.join_all directory (dest_dir ++ [filename])) copy)
    is_OSError handler sm
  = if bool_decide (file_path ∈ locked sm)
    then handler PermissionError sm
    else (Ok tt,
          set_stats (organized_incr destination_folder (stats sm))
            (set_operation_history
               (operation_history sm
                ++ [mkOperation (if copy then "copy" else "move") file_path final])
               (logging (if copy then InfoCopied filename final
                         else InfoMoved filename final)
                  (set_fs (<[final := File data mtime]>
                             (if copy then fs sm else delete file_path (fs sm)))
                          sm)))).
Proof.
  intros Hfile file_path final.
  destruct (resolve_conflict_spec sm dest_dir directory filename
              (Py.join_all directory (dest_dir ++ [filename]))) as [Hfree _].
  fold final in Hfree. apply path_exists_false in Hfree.
  unfold try_except, transfer, bind, get_state. fold file_path final.
  case_bool_decide as Hlocked.
  - destruct copy.
    + by rewrite copy2_locked.
    + by rewrite move_locked.
  - destruct copy.
    + by rewrite (copy2_onto _ _ data mtime).
    + rewrite (move_onto _ _ (File data mtime)) by (done || congruence). done.
Qed.

Lemma organize_entry_outcome (directory filename : string)
    (organize_by_date copy : bool) (s s' : state) (r : result unit) :
  organize_entry directory organize_by_date copy filename s = (r, s') →
  entry_outcome directory organize_by_date copy filename s r s'.
Proof.
  unfold organize_entry, bind, get_state.
  destruct (_ || _ || _) eqn:Htest.
  { intros [= <- <-]. apply outcome_passed_over. by apply passed_over_test. }
  assert (Hnot : ¬ passed_over directory filename s).
  { rewrite <- passed_over_test. by rewrite Htest. }
  assert (Hnotdir : fs s !! Py.join directory filename ≠ Some Dir).
  { intros Hdir. apply Hnot. left. by apply bool_decide_eq_true. }
  unfold is_excluded.
  destruct (is_excluded_in (excluded_patterns s) filename) as [[|]|e] eqn:Hexcl.
  { intros [= <- <-]. by apply outcome_excluded. }
  2: { intros [= <- <-]. by apply outcome_filter_raised. }
  unfold update_stats at 1. unfold modify at 1.
  unfold OS.getsize. simpl fs.
  destruct (fs s !! Py.join directory filename) as [[data mtime|]|] eqn:Hfile;
    [|done|intros [= <- <-]; by apply outcome_vanished].
  unfold update_stats at 1. unfold modify at 1.
  set (counted := set_stats _ (set_stats _ s)).
  assert (Hcounted : counted
            = set_stats (size_add (String.length data) (total_incr (stats s))) s)
    by done.
  change (file_types counted) with (file_types s).
  set (destination_folder := classify (file_types s) filename).
  destruct organize_by_date.
  - unfold OS.getmtime. change (fs counted) with (fs s). rewrite Hfile.
    set (date_folder := Py.join_all directory _).
    change (OS.path_exists date_folder counted) with (OS.path_exists date_folder s).
    destruct (OS.path_exists date_folder s) eqn:Hdate.
    + unfold ret at 1 2.
      rewrite (guarded_transfer _ _ _ data mtime _ _ _ _) by done.
      change (locked counted) with (locked s).
      assert (Hprep : prepared directory filename true data mtime s counted
                        [destination_folder; strftime_ymd mtime]).
      { unfold prepared. fold destination_folder date_folder. rewrite Hdate.
        split; [done|]. by left. }
      case_bool_decide; intros [= <- <-].
      * exact (outcome_transfer_failed directory true copy filename s data mtime
                 counted _ Hnot Hexcl Hfile Hprep H).
      * exact (outcome_transferred directory true copy filename s data mtime
                 counted _ Hnot Hexcl Hfile Hprep H).
    + destruct (OS.makedirs date_folder counted) as [[[]|e] sm] eqn:Hmk.
      * unfold ret at 1.
        pose proof (makedirs_adds _ _ _ _ Hmk) as Hadd.
        rewrite (guarded_transfer _ _ _ data mtime _ _ _ _)
          by (by eapply dirs_added_keeps).
        assert (locked sm = locked s) as -> by (destruct Hadd as [_ ->]; done).
        assert (Hprep : prepared directory filename true data mtime s sm
                          [destination_folder; strftime_ymd mtime]).
        { unfold prepared. fold destination_folder date_folder. rewrite Hdate.
          split; [done|]. right. by rewrite <- Hcounted. }
        case_bool_decide; intros [= <- <-].
        -- exact (outcome_transfer_failed directory true copy filename s data mtime
                    sm _ Hnot Hexcl Hfile Hprep H).
        -- exact (outcome_transferred directory true copy filename s data mtime
                    sm _ Hnot Hexcl Hfile Hprep H).
      * intros [= <- <-].
        exact (outcome_date_folder_failed directory true copy filename s data mtime
                 e sm Hnot Hexcl Hfile eq_refl Hmk).
  - unfold ret at 1.
    rewrite (guarded_transfer _ _ _ data mtime _ _ _ _) by done.
    change (locked counted) with (locked s).
    assert (Hprep : prepared directory filename false data mtime s counted
                      [destination_folder]) by done.
    case_bool_decide; intros [= <- <-].
    + exact (outcome_transfer_failed directory false copy filename s data mtime
               counted _ Hnot Hexcl Hfile Hprep H).
    + exact (outcome_transferred directory false copy filename s data mtime
               counted _ Hnot Hexcl Hfile Hprep H).
Qed.

End Body.

Section Transfer.
Context {env : Env}.

Lemma prepared_fields (directory filename : string) (organize_by_date : bool)
    (data : string) (mtime : Z) (s sm : state) (dest_dir : list string) :
  prepared directory filename organize_by_date data mtime s sm dest_dir →
  sm = set_fs (fs sm)
         (set_stats (size_add (String.length data) (total_incr (stats s))) s)
  ∧ (∀ p, fs sm !! p = fs s !! p ∨ (fs s !! p = None ∧ fs sm !! p = Some Dir))
  ∧ (organize_by_date = false → fs sm = fs s)
  ∧ dest_dir = classify (file_types s) filename
               :: (if organize_by_date then [strftime_ymd mtime] else []).
Proof.
  intros Hprep. pose proof (prepared_state _ _ _ _ _ _ _ _ Hprep) as [Hfs Hsm].
  split; [done|]. split; [done|]. unfold prepared in Hprep.
  destruct organize_by_date.
  - split; [done|]. by destruct Hprep as [-> _].
  - destruct Hprep as [-> ->]. done.
Qed.



End Transfer.

(** ** A whole run *)






Lemma for_each_ind {A} (body : A → M unit) (P : list A → state → Prop) :
  (∀ x rest s s', P (x :: rest) s → body x s = (Ok tt, s') → P rest s') →
  ∀ xs s s', P xs s → for_each xs body s = (Ok tt, s') → P [] s'.
Proof.
  intros Hstep xs. induction xs as [|x xs IH]; intros s s' HP; simpl.
  - by intros [= <-].
  - unfold bind. destruct (body x s) as [[[]|e] s1] eqn:Hx; [|done].
    intros Hrest. eapply IH; [|done]. by eapply Hstep.
Qed.

Section Run.
Context {env : Env}.

(** The phases of a run that returns. *)
Lemma organize_files_Ok (directory : string) (organize_by_date copy : bool)
    (s s' : state) (st : Stats) :
  organize_files directory organize_by_date copy s = (Ok st, s') →
  ∃ sF names,
    dirs_added (set_stats (fresh_stats (file_types s)) s) sF
    ∧ OS.listdir directory sF = (Ok names, sF)
    ∧ for_each names (organize_entry directory organize_by_date copy) sF
      = (Ok tt, s')
    ∧ st = stats s'.
Proof.
  unfold organize_files, try_except, bind, modify, get_state, raise.
  set (s0 := set_stats (fresh_stats (file_types s)) s).
  change (file_types s0) with (file_types s).
  destruct (for_each (file_types s).*1 (ensure_folder directory) s0)
    as [[[]|e] s1] eqn:Hfolders; [|done].
  destruct (ensure_folder directory "Others" s1) as [[[]|e] sF] eqn:Hothers; [|done].
  destruct (OS.listdir directory sF) as [[names|e] sL] eqn:Hlist; [|done].
  assert (sL = sF) as ->.
  { unfold OS.listdir in Hlist. repeat case_match; by simplify_eq. }
  destruct (for_each names _ sF) as [[[]|e] s2] eqn:Hloop; [|done].
  unfold ret. intros [= <- <-]. exists sF, names.
  split; [|done].
  eapply dirs_added_trans; [|by eapply ensure_folder_adds].
  eapply for_each_adds; [|done]. intros ????. apply ensure_folder_adds.
Qed.

End Run.

Section Accounting.
Context {env : Env}.


End Accounting.

(** ** Directory listings *)

Lemma prefix_drop (pre k : string) :
  String.prefix pre k = true → k = pre +:+ Py.drop (String.length pre) k.
Proof.
  unfold Py.drop. revert k. induction pre as [|c pre IH]; intros k.
  - intros _. simpl. by rewrite Nat.sub_0_r, substring_whole.
  - destruct k as [|c' k]; [done|]. cbn [String.prefix].
    destruct (ascii_dec c c') as [<-|]; [|done]. intros Hpre.
    rewrite str_app_cons. simpl. f_equal. by apply IH.
Qed.

Lemma rfind_None_startswith (n : string) :
  Py.rfind "/" n = None → Py.startswith n "/" = false.
Proof.
  destruct n as [|c n]; [done|]. unfold Py.startswith. cbn [Py.rfind String.prefix].
  destruct (Py.rfind "/" n); [done|].
  destruct (Ascii.eqb_spec c "/") as [->|Hne]; [done|]. intros _.
  destruct (ascii_dec "/" c) as [<-|]; done.
Qed.

(** A listed name, joined to the directory, is the path it was read from. *)
Lemma child_name_join (d k n : string) :
  d ≠ "" → OS.child_name d k = Some n →
  Py.join d n = k ∧ Py.startswith n "/" = false.
Proof.
  intros Hd. unfold OS.child_name.
  set (pre := if Py.endswith d "/" then d else d +:+ "/").
  destruct (Py.startswith k pre) eqn:Hpre; [|done].
  apply prefix_drop in Hpre. set (n' := Py.drop (String.length pre) k) in *.
  destruct (String.eqb n' ""); [done|].
  destruct (Py.rfind "/" n') eqn:Hsep; [done|]. intros [= <-].
  apply rfind_None_startswith in Hsep. split; [|done].
  unfold Py.join. rewrite Hsep. apply String.eqb_neq in Hd. rewrite Hd. simpl.
  rewrite Hpre. subst pre. destruct (Py.endswith d "/"); [done|].
  by rewrite str_app_assoc.
Qed.

Lemma listdir_names (d : string) (s s' : state) (names : list string) :
  OS.listdir d s = (Ok names, s') →
  NoDup names
  ∧ ∀ f, f ∈ names →
      is_Some (fs s !! Py.join d f) ∧ Py.startswith f "/" = false.
Proof.
  unfold OS.listdir. destruct (String.eqb_spec d "") as [|Hd]; [done|].
  case_bool_decide; [done|].
  destruct (fs s !! d) as [[|]|]; [done| |done]. intros [= <- <-].
  assert (Hjoin : ∀ kv f, kv ∈ map_to_list (fs s) → OS.child_name d kv.1 = Some f →
            Py.join d f = kv.1 ∧ fs s !! kv.1 = Some kv.2
            ∧ Py.startswith f "/" = false).
  { intros [k n] f Hin Hchild. apply elem_of_map_to_list in Hin.
    apply child_name_join in Hchild as [? ?]; done. }
  split.
  - pose proof (NoDup_fst_map_to_list (fs s)) as Hnodup.
    revert Hjoin Hnodup. generalize (map_to_list (fs s)).
    intros l. induction l as [|kv l IH]; intros Hjoin Hnodup; simpl.
    { constructor. }
    rewrite fmap_cons in Hnodup. apply NoDup_cons in Hnodup as [Hnotin Hnodup].
    assert (Htail : NoDup (omap (λ kv, OS.child_name d kv.1) l)).
    { apply IH; [|done]. intros kv' f Hin. apply Hjoin. by right. }
    destruct (OS.child_name d kv.1) as [f|] eqn:Hf; [|done].
    apply NoDup_cons. split; [|done].
    intros Hin. apply list_elem_of_omap in Hin as (kv' & Hin' & Hf').
    destruct (Hjoin kv f ltac:(left) Hf) as [E1 _].
    destruct (Hjoin kv' f ltac:(by right) Hf') as [E2 _].
    apply Hnotin. rewrite <- E1, E2. apply list_elem_of_fmap. by exists kv'.
  - intros f Hin. apply list_elem_of_omap in Hin as (kv & Hin & Hf).
    destruct (Hjoin kv f Hin Hf) as (<- & Hkv & ?). eauto.
Qed.

Section Failures.
Context {env : Env}.



End Failures.


(** ** Organising, then undoing *)

Section RoundTrip.
Context {env : Env}.

Lemma moving_run_step (directory : string) (organize_by_date : bool)
    (s sF : state) (x : string) (rest : list string) (s1 s2 : state) :
  moving_run_inv directory organize_by_date s sF (x :: rest) s1 →
  organize_entry directory organize_by_date false x s1 = (Ok tt, s2) →
  moving_run_inv directory organize_by_date s sF rest s2.
Proof.
  intros (Hnodup & Hlisted & ops & Hhist & Hlast) Hstep.
  apply NoDup_cons in Hnodup as [Hx Hnodup].
  assert (Hrest : ∀ f, f ∈ rest →
            is_Some (fs sF !! Py.join directory f)
            ∧ Py.startswith f "/" = false
            ∧ fs s1 !! Py.join directory f = fs sF !! Py.join directory f).
  { intros f Hf. apply Hlisted. by right. }
  assert (Hgrow : ∀ sm,
            (∀ p n, fs s1 !! p = Some n → fs sm !! p = Some n) →
            (organize_by_date = false → fs sm = fs s1) →
            operation_history sm = operation_history s1 →
            moving_run_inv directory organize_by_date s sF rest sm).
  { intros sm Hkeep Hsame Hh. split; [done|]. split.
    - intros f Hf. destruct (Hrest f Hf) as ([n Hn] & ? & E).
      split; [by eauto|]. split; [done|]. rewrite Hn in E |- *.
      by apply Hkeep.
    - exists ops. rewrite Hh. split; [done|]. intros op Hop.
      destruct (Hlast op Hop) as (f & data & mtime & ? & ? & ? & Hdst & Hsrc).
      exists f, data, mtime. repeat split; try done.
      + by apply Hkeep.
      + intros Hbd. rewrite (Hsame Hbd). by apply Hsrc. }
  apply organize_entry_outcome in Hstep.
  inversion Hstep as [ | | | | | data mtime sm dest_dir ?? Hfile Hprep ?
                     | data mtime sm dest_dir ?? Hfile Hprep ?]; subst.
  - by apply Hgrow.
  - by apply (Hgrow (logging _ (set_stats _ s1))).
  - apply prepared_fields in Hprep as (Hsm & Hfs & Hnodate & _).
    assert (Hfree : fs sm !! final = None).
    { apply path_exists_false, resolve_conflict_spec. }
    assert (Hsrc : fs sm !! Py.join directory x = Some (File data mtime)).
    { destruct (Hfs (Py.join directory x)) as [->|[? ?]]; congruence. }
    destruct (Hlisted x ltac:(left)) as (_ & Hxsep & Hxsame).
    split; [done|]. split.
    + intros f Hf. destruct (Hrest f Hf) as ([n Hn] & Hfsep & E).
      split; [by eauto|]. split; [done|].
      cbn [fs set_stats set_operation_history logging set_fs].
      assert (Hfm : fs sm !! Py.join directory f = Some n).
      { destruct (Hfs (Py.join directory f)) as [->|[? ?]]; congruence. }
      rewrite lookup_insert_ne by congruence.
      rewrite lookup_delete_ne; [congruence|].
      intros Heq. apply join_inj in Heq; [|congruence]. congruence.
    + exists (ops ++ [mkOperation "move" (Py.join directory x) final]).
      cbn [operation_history set_stats set_operation_history].
      assert (operation_history sm = operation_history s1) as -> by by rewrite Hsm.
      rewrite Hhist, app_assoc. split; [done|].
      intros op Hop. rewrite last_snoc in Hop. injection Hop as <-.
      exists x, data, mtime. cbn [op_operation op_source op_destination].
      cbn [fs set_stats set_operation_history logging set_fs].
      split; [done|]. split; [done|]. split; [congruence|].
      split; [by rewrite lookup_insert_eq|]. intros _.
      rewrite lookup_insert_ne by congruence. apply lookup_delete_eq.
  - apply prepared_fields in Hprep as (Hsm & Hfs & Hnodate & _).
    apply (Hgrow (logging _ (set_stats _ sm))).
    + intros p n Hp. cbn [fs logging set_stats].
      destruct (Hfs p) as [->|[? ?]]; congruence.
    + done.
    + by rewrite Hsm.
Qed.

(** C3 (as amended).  After a moving run that recorded at least one
    operation, the last one recorded is a move of a file of the directory,
    and that file, with the bytes and modification time it had before the
    run, is at the recorded destination.  One [undo_last_operation] then
    puts exactly that file back at its original path (provided the process
    may touch it and no directory has taken the path), answers true, and
    removes the record; every other path is as the run left it. *)
Theorem undo_restores_last_moved (directory : string) (organize_by_date : bool)
    (s s1 : state) (st : Stats) :
  organize_files directory organize_by_date false s = (Ok st, s1) →
  ∀ ops op, operation_history s1 = operation_history s ++ ops ++ [op] →
  ∃ filename data mtime,
    op_operation op = "move"
    ∧ op_source op = Py.join directory filename
    ∧ fs s !! op_source op = Some (File data mtime)
    ∧ fs s1 !! op_destination op = Some (File data mtime)
    ∧ (organize_by_date = false → fs s1 !! op_source op = None)
    ∧ (op_destination op ∉ locked s1 →
       fs s1 !! op_source op ≠ Some Dir →
       ∃ s2, undo_last_operation s1 = (Ok true, s2)
         ∧ fs s2 = <[op_source op := File data mtime]>
                     (delete (op_destination op) (fs s1))
         ∧ fs s2 !! op_source op = fs s !! op_source op
         ∧ operation_history s2 = operation_history s ++ ops).
Proof.
  intros Hrun ops op Hops.
  apply organize_files_Ok in Hrun as (sF & names & Hadd & Hlist & Hloop & ->).
  apply listdir_names in Hlist as [Hnodup Hnames].
  assert (Hinv : moving_run_inv directory organize_by_date s sF [] s1).
  { refine (for_each_ind _ (moving_run_inv directory organize_by_date s sF)
              _ names sF s1 _ Hloop).
    - intros x rest sa sb. apply moving_run_step.
    - split; [done|]. split.
      + intros f Hf. destruct (Hnames f Hf) as [? ?]. done.
      + exists []. rewrite app_nil_r. split; [by destruct Hadd as [_ ->]|done]. }
  destruct Hinv as (_ & _ & ops' & Hhist & Hlast).
  rewrite Hhist in Hops. apply app_inv_head in Hops. subst ops'.
  destruct (Hlast op (last_snoc _ _))
    as (filename & data & mtime & Hmove & Hsrc & Hlisted & Hdst & Hgone).
  apply (dirs_added_file _ _ _ _ _ Hadd) in Hlisted. cbn [fs set_stats] in Hlisted.
  exists filename, data, mtime.
  split; [done|]. split; [done|]. split; [done|]. split; [done|]. split; [done|].
  intros Hfree Hnotdir.
  rewrite app_assoc in Hhist.
  pose proof (undo_of_move_succeeds s1 _ op _ Hhist Hmove Hdst Hfree Hnotdir)
    as Hundo.
  eexists. split; [exact Hundo|].
  cbn [fs operation_history logging set_fs set_operation_history].
  split; [done|]. split; [|done]. by rewrite lookup_insert_eq.
Qed.

End RoundTrip.

(** The round trip as the specification states it: organise by moving, undo
    once, and the directory is as it was.  It does not hold: one undo takes
    back one file only, and the folders the run made stay. *)
Lemma one_undo_does_not_restore_the_directory :
  ¬ (∀ (s s1 s2 : state) (directory : string) (organize_by_date : bool)
       (st : Stats) (b : bool),
       @organize_files Demo.env directory organize_by_date false s = (Ok st, s1) →
       undo_last_operation s1 = (Ok b, s2) →
       fs s2 = fs s).
Proof.
  intros Hclaim.
  pose (run := @organize_files Demo.env "/d" false false three_files).
  pose (back := undo_last_operation run.2).
  assert (Hrun : run = (Ok (stats run.2), run.2)) by (vm_compute; reflexivity).
  assert (Hback : back = (Ok true, back.2)) by (vm_compute; reflexivity).
  pose proof (Hclaim _ _ _ _ _ _ _ Hrun Hback) as E.
  apply (f_equal (λ m, m !! "/d/a.jpg")) in E. vm_compute in E. discriminate E.
Qed.

(** ** The theorems at work on concrete directories *)




Lemma undo_restores_last_moved_witness :
  ∃ s1 s2 op,
    (@organize_files Demo.env "/d" false false three_files).2 = s1
    ∧ last (operation_history s1) = Some op
    ∧ undo_last_operation s1 = (Ok true, s2)
    ∧ fs s2 !! op_source op = fs three_files !! op_source op.
Proof.
  pose (run := @organize_files Demo.env "/d" false false three_files).
  assert (Hrun : run = (Ok (stats run.2), run.2)) by (vm_compute; reflexivity).
  destruct (undo_restores_last_moved (env := Demo.env) "/d" false three_files
              run.2 (stats run.2) Hrun
              [mkOperation "move" "/d/c.unknownext" "/d/Others/c.unknownext";
               mkOperation "move" "/d/a.jpg" "/d/Photos/a.jpg"]
              (mkOperation "move" "/d/b.txt" "/d/Documents/b.txt")
              ltac:(vm_compute; reflexivity))
    as (filename & data & mtime & _ & _ & _ & _ & _ & Hundo).
  destruct (Hundo ltac:(vm_compute; intros Hin; discriminate Hin)
              ltac:(vm_compute; discriminate))
    as (s2 & Hback & _ & Hsame & _).
  exists run.2, s2, (mkOperation "move" "/d/b.txt" "/d/Documents/b.txt").
  split; [reflexivity|]. split; [vm_compute; reflexivity|].
  split; [exact Hback|exact Hsame].
Defined.

Lemma excluded_file_is_skipped_witness :
  ∃ s', @organize_entry Demo.env "/d" false false ".hidden" hidden_file = (Ok tt, s')
        ∧ skipped_files (stats s') = 1
        ∧ total_files (stats s') = 0
        ∧ fs s' = fs hidden_file.
Proof.
  destruct (proj2 (excluded_file_is_skipped (env := Demo.env)
                     "/d" ".hidden" false false hidden_file
                     ltac:(repeat constructor))
              ltac:(vm_compute; reflexivity) ltac:(vm_compute; discriminate)
              ltac:(vm_compute; reflexivity)
              ltac:(exists "^\."; split; [by left|vm_compute; reflexivity]))
    as (s' & Hrun & Hskipped & Htotal & _ & _ & _ & Hfs & _).
  exists s'. split; [exact Hrun|]. split; [exact Hskipped|]. split; [exact Htotal|].
  exact Hfs.
Defined.



Lemma passed_over_entry_changes_nothing_witness :
  @organize_entry Demo.env "/d" false false "file_organizer.log" three_files
  = (Ok tt, three_files).
Proof.
  refine (proj1 (passed_over_entry_changes_nothing (env := Demo.env)
                   "/d" "file_organizer.log" false false three_files _)).
  right. right. vm_compute. reflexivity.
Defined.


(** ** Checks of the primitives on examples *)

Example splitext_pdf : Py.splitext "report.pdf" = ("report", ".pdf").
Proof. reflexivity. Qed.
Example splitext_hidden : Py.splitext ".bashrc" = (".bashrc", "").
Proof. reflexivity. Qed.
Example splitext_tar : Py.splitext "a.tar.gz" = ("a.tar", ".gz").
Proof. reflexivity. Qed.
Example join3 : Py.join_all "/d" ["Photos"; "a.jpg"] = "/d/Photos/a.jpg".
Proof. reflexivity. Qed.
Example lower_ex : Py.lower "A.JPG" = "a.jpg".
Proof. reflexivity. Qed.
Example format_size_0 : format_size 0 = Some "0.00 B".
Proof. vm_compute. reflexivity. Qed.
Example format_size_1023 : format_size 1023 = Some "1023.00 B".
Proof. vm_compute. reflexivity. Qed.
Example format_size_1536 : format_size 1536 = Some "1.50 KB".
Proof. vm_compute. reflexivity. Qed.
Example format_size_128 : format_size_loop ["KB"] 128 1024 = Some "0.12 KB".
Proof. vm_compute. reflexivity. Qed.
Example format_size_5GB : format_size (5 * 1024 ^ 4) = Some "5120.00 GB".
Proof. vm_compute. reflexivity. Qed.
Example demo_hidden : Demo.found "^\." ".hidden" = true ∧ Demo.found "^\." "visible.txt" = false.
Proof. split; reflexivity. Qed.
Example demo_tmp : Demo.found "tmp" "my_tmp_file" = true ∧ Demo.valid "(" = false
                   ∧ Demo.found "a.*z$" "xxabcz" = true.
Proof. repeat split; reflexivity. Qed.
Example demo_ymd : Demo.ymd 1741910400 = "2025-03-14" ∧ Demo.ymd 0 = "1970-01-01"
                   ∧ Demo.ymd 951782400 = "2000-02-29".
Proof. repeat split; vm_compute; reflexivity. Qed.

(** * Further properties of the program *)

(** ** Loops and listings *)


(** A listed name is the name of the path it was read from. *)
Lemma listdir_child (d : string) (s s' : state) (names : list string) (f : string) :
  OS.listdir d s = (Ok names, s') → f ∈ names →
  ∃ n, OS.child_name d (Py.join d f) = Some f ∧ fs s !! Py.join d f = Some n.
Proof.
  unfold OS.listdir. destruct (String.eqb_spec d "") as [|Hd]; [done|].
  case_bool_decide; [done|].
  destruct (fs s !! d) as [[|]|]; [done| |done]. intros [= <- <-] Hin.
  apply list_elem_of_omap in Hin as ([k n] & Hin & Hf). simpl in Hf.
  apply elem_of_map_to_list in Hin.
  destruct (child_name_join d k f Hd Hf) as [-> _]. by exists n.
Qed.

Section Phases.
Context {env : Env}.


End Phases.

(** ** What a run leaves alone *)

Section Untouched.
Context {env : Env}.



End Untouched.


(** ** What a run records *)

Section Records.
Context {env : Env}.

Lemma records_step (directory : string) (organize_by_date copy : bool)
    (sF : state) (names : list string) (x : string) (rest : list string)
    (s1 s2 : state) :
  (∀ f, f ∈ names →
     is_Some (fs sF !! Py.join directory f) ∧ Py.startswith f "/" = false) →
  x ∈ names → x ∉ rest → (∀ f, f ∈ rest → f ∈ names) →
  records_inv directory copy sF names (x :: rest) s1 →
  organize_entry directory organize_by_date copy x s1 = (Ok tt, s2) →
  records_inv directory copy sF names rest s2.
Proof.
  intros Hnames Hx Hxrest Hsub (Hlisted & ops & Hhist & Hlen & Hnodup & Hops) Hstep.
  assert (Hold : ∀ op, op ∈ ops →
            op_operation op = (if copy then "copy" else "move")
            ∧ ∃ f data mtime,
                f ∈ names ∧ (f ∉ rest)
                ∧ op_source op = Py.join directory f
                ∧ fs sF !! op_source op = Some (File data mtime)).
  { intros op Hop. destruct (Hops op Hop) as (? & f & data & mtime & ? & Hnot & ? & ?).
    split; [done|]. exists f, data, mtime. repeat split; try done.
    intros Hin. apply Hnot. by right. }
  assert (Hsame : ∀ sm,
            (∀ p n, fs s1 !! p = Some n → fs sm !! p = Some n) →
            operation_history sm = operation_history s1 →
            organized_files (stats sm) = organized_files (stats s1) →
            records_inv directory copy sF names rest sm).
  { intros sm Hkeep Hh Ho. split.
    - intros f Hf. destruct (Hnames f (Hsub f Hf)) as [[n Hn] _].
      rewrite <- (Hlisted f) in Hn |- * by by right.
      rewrite Hn. by apply Hkeep.
    - exists ops. rewrite Hh, Ho. done. }
  apply organize_entry_outcome in Hstep.
  inversion Hstep as [ | | | | | data mtime sm dest_dir ?? Hfile Hprep ?
                     | data mtime sm dest_dir ?? Hfile Hprep ?]; subst.
  - by apply Hsame.
  - by apply Hsame.
  - apply prepared_fields in Hprep as (Hsm & Hfs & _).
    assert (Hfree : fs sm !! final = None).
    { apply path_exists_false, resolve_conflict_spec. }
    split.
    + intros f Hf. destruct (Hnames f (Hsub f Hf)) as [[n Hn] Hfsep].
      rewrite <- (Hlisted f) in Hn |- * by by right.
      assert (Hfm : fs sm !! Py.join directory f = Some n).
      { destruct (Hfs (Py.join directory f)) as [->|[? ?]]; congruence. }
      cbn [fs set_stats set_operation_history logging set_fs].
      rewrite lookup_insert_ne by congruence.
      destruct copy; [congruence|].
      rewrite lookup_delete_ne; [congruence|].
      intros Heq. apply join_inj in Heq.
      * subst f. done.
      * destruct (Hnames x Hx) as [_ ->]. by rewrite Hfsep.
    + exists (ops ++ [mkOperation (if copy then "copy" else "move")
                        (Py.join directory x) final]).
      cbn [operation_history stats set_stats set_operation_history
           organized_files organized_incr].
      rewrite Hsm. cbn [operation_history stats set_fs set_stats organized_files
                        size_add total_incr].
      rewrite Hhist, app_assoc. split; [done|].
      rewrite length_app. simpl. split; [lia|]. split.
      * rewrite fmap_app. simpl. apply NoDup_app. split; [done|]. split.
        -- intros src Hin Hin'. apply list_elem_of_singleton in Hin'. subst src.
           apply list_elem_of_fmap in Hin as (op & Hsrc & Hop).
           destruct (Hops op Hop) as (_ & f & ? & ? & Hf & Hnot & E & _).
           rewrite E in Hsrc. apply join_inj in Hsrc.
           ++ subst f. apply Hnot. by left.
           ++ destruct (Hnames x Hx) as [_ ->]. by destruct (Hnames f Hf) as [_ ->].
        -- apply NoDup_singleton.
      * intros op Hop. apply elem_of_app in Hop as [Hop|Hop]; [by apply Hold|].
        apply list_elem_of_singleton in Hop. subst op. split; [done|].
        exists x, data, mtime. cbn [op_source].
        rewrite <- (Hlisted x) by by left. done.
  - apply prepared_fields in Hprep as (Hsm & Hfs & _). apply Hsame.
    + intros p n Hp. cbn [fs logging set_stats].
      destruct (Hfs p) as [->|[? ?]]; congruence.
    + by rewrite Hsm.
    + by rewrite Hsm.
Qed.

End Records.

Section History.
Context {env : Env}.

(** X2. A run that returns has appended to the history one record for each
    file it counts as organised, and nothing else: earlier records are
    kept in place, each new record carries the mode of the run (["copy"]
    or ["move"]) and names as its source a file that was directly inside
    the directory when the run started, and no file is recorded twice. *)
Theorem run_records_each_transfer (directory : string)
    (organize_by_date copy : bool) (s s' : state) (st : Stats) :
  organize_files directory organize_by_date copy s = (Ok st, s') →
  ∃ ops,
    operation_history s' = operation_history s ++ ops
    ∧ length ops = organized_files st
    ∧ NoDup (op_source <$> ops)
    ∧ ∀ op, op ∈ ops →
        op_operation op = (if copy then "copy" else "move")
        ∧ ∃ f data mtime,
            op_source op = Py.join directory f
            ∧ OS.child_name directory (op_source op) = Some f
            ∧ fs s !! op_source op = Some (File data mtime).
Proof.
  intros Hrun.
  apply organize_files_Ok in Hrun as (sF & names & Hadd & Hlist & Hloop & ->).
  pose proof (listdir_names _ _ _ _ Hlist) as [Hnodup Hnames].
  assert (Hinv : records_inv directory copy sF names [] s').
  { cut (∀ rest s1, (∃ done, names = done ++ rest) → NoDup rest →
           records_inv directory copy sF names rest s1 →
           for_each rest (organize_entry directory organize_by_date copy) s1
           = (Ok tt, s') →
           records_inv directory copy sF names [] s').
    { intros Hcut. apply (Hcut names sF); [by exists []|done| |done].
      split; [done|].
      exists []. rewrite app_nil_r. split; [done|]. split; [done|].
      split; [constructor|]. intros op Hop. by apply elem_of_nil in Hop. }
    intros rest. induction rest as [|x rest IH]; intros s1 [done Hsplit] Hnd Hinv.
    - by intros [= <-].
    - simpl. unfold bind.
      destruct (organize_entry directory organize_by_date copy x s1)
        as [[[]|e] s2] eqn:Hstep; [|done].
      apply NoDup_cons in Hnd as [Hx Hnd].
      apply IH; [|done|].
      + exists (done ++ [x]). by rewrite <- app_assoc.
      + apply (records_step _ organize_by_date _ _ _ x rest s1 s2); try done.
        * rewrite Hsplit. apply elem_of_app. right. by left.
        * intros f Hf. rewrite Hsplit. apply elem_of_app. right. by right. }
  destruct Hinv as (_ & ops & Hhist & Hlen & Hnd & Hops).
  assert (HsF : sF = set_fs (fs sF) (set_stats (fresh_stats (file_types s)) s))
    by by destruct Hadd as [_ ->].
  exists ops. split; [by rewrite Hhist, HsF|].
  split; [rewrite HsF in Hlen; simpl in Hlen; lia|]. split; [done|].
  intros op Hop.
  destruct (Hops op Hop) as (Htag & f & data & mtime & Hf & _ & Hsrc & Hfile).
  split; [done|]. exists f, data, mtime. split; [done|].
  destruct (listdir_child _ _ _ _ _ Hlist Hf) as (n & Hchild & _).
  rewrite Hsrc at 1. split; [done|].
  by apply (dirs_added_file _ _ _ _ _ Hadd) in Hfile.
Qed.

End History.

Lemma run_records_each_transfer_witness :
  ∃ ops, operation_history
           (@organize_files Demo.env "/d" false true three_files_one_locked).2
         = ops
    ∧ length ops = 2
    ∧ NoDup (op_source <$> ops)
    ∧ ∀ op, op ∈ ops → op_operation op = "copy".
Proof.
  pose (run := @organize_files Demo.env "/d" false true three_files_one_locked).
  assert (Hrun : run = (Ok (stats run.2), run.2)) by (vm_compute; reflexivity).
  destruct (run_records_each_transfer (env := Demo.env) "/d" false true
              three_files_one_locked run.2 (stats run.2) Hrun)
    as (ops & Hhist & Hlen & Hnd & Hops).
  exists ops. split; [exact Hhist|]. split; [rewrite Hlen; vm_compute; reflexivity|].
  split; [exact Hnd|]. intros op Hop. exact (proj1 (Hops op Hop)).
Defined.

(** ** A directory that holds folders only *)

Section FoldersOnly.
Context {env : Env}.

Lemma for_each_fixed {A} (body : A → M unit) (xs : list A) (s : state) :
  (∀ x, x ∈ xs → body x s = (Ok tt, s)) → for_each xs body s = (Ok tt, s).
Proof.
  induction xs as [|x xs IH]; intros Hbody; simpl; [done|].
  unfold bind. rewrite (Hbody x) by by left. apply IH.
  intros y Hy. apply Hbody. by right.
Qed.

(** X3. When everything directly inside the directory is a folder (as
    after a moving run that left nothing behind), a run transfers nothing:
    it returns the zero statistics, records no operation, writes no line
    to the log, and the files of the whole file system are exactly those
    there were; at most it has created category folders that were
    missing. *)
Theorem run_on_folders_only (directory : string) (organize_by_date copy : bool)
    (s s' : state) (st : Stats) :
  (∀ k n, fs s !! k = Some n → OS.child_name directory k ≠ None → n = Dir) →
  organize_files directory organize_by_date copy s = (Ok st, s') →
  st = fresh_stats (file_types s)
  ∧ operation_history s' = operation_history s
  ∧ log s' = log s
  ∧ (∀ p data mtime,
       fs s' !! p = Some (File data mtime) ↔ fs s !! p = Some (File data mtime))
  ∧ (∀ p, fs s' !! p = fs s !! p ∨ (fs s !! p = None ∧ fs s' !! p = Some Dir)).
Proof.
  intros Hdirs Hrun.
  apply organize_files_Ok in Hrun as (sF & names & Hadd & Hlist & Hloop & ->).
  assert (Hfixed : for_each names (organize_entry directory organize_by_date copy) sF
                   = (Ok tt, sF)).
  { apply for_each_fixed. intros f Hf.
    destruct (listdir_child _ _ _ _ _ Hlist Hf) as (n & Hchild & Hn).
    assert (n = Dir) as ->.
    { destruct Hadd as [Hfs _]. destruct (Hfs (Py.join directory f)) as [E|[_ E]].
      - apply (Hdirs (Py.join directory f)); [|by rewrite Hchild].
        rewrite E in Hn. exact Hn.
      - congruence. }
    unfold organize_entry, bind, get_state, OS.path_isdir.
    by rewrite bool_decide_eq_true_2. }
  rewrite Hfixed in Hloop. injection Hloop as <-.
  destruct Hadd as [Hfs HsF]. rewrite HsF.
  cbn [stats operation_history log fs set_fs set_stats].
  split; [done|]. split; [done|]. split; [done|]. split; [|done].
  intros p data mtime. destruct (Hfs p) as [->|[Hnone Hdir]]; [done|].
  cbn [fs set_stats] in Hnone. rewrite Hnone, Hdir. done.
Qed.

End FoldersOnly.

Lemma run_on_folders_only_witness :
  ∃ st s', @organize_files Demo.env "/d" false false organised_before = (Ok st, s')
    ∧ total_files st = 0
    ∧ operation_history s' = []
    ∧ fs s' !! "/d/Photos/a.jpg" = Some (File "aaaa" 1).
Proof.
  pose (run := @organize_files Demo.env "/d" false false organised_before).
  assert (Hrun : run = (Ok (stats run.2), run.2)) by (vm_compute; reflexivity).
  assert (Hdirs : ∀ k n, fs organised_before !! k = Some n →
                    OS.child_name "/d" k ≠ None → n = Dir).
  { intros k n Hk Hchild. unfold organised_before, new_organizer in Hk.
    cbn [fs] in Hk. apply elem_of_list_to_map_2 in Hk.
    apply elem_of_cons in Hk as [[= -> ->]|Hk]; [reflexivity|].
    apply elem_of_cons in Hk as [[= -> ->]|Hk]; [reflexivity|].
    apply elem_of_cons in Hk as [[= -> ->]|Hk];
      [exfalso; apply Hchild; vm_compute; reflexivity|].
    destruct (not_elem_of_nil _ Hk). }
  destruct (run_on_folders_only (env := Demo.env) "/d" false false
              organised_before run.2 (stats run.2) Hdirs Hrun)
    as (Hst & Hhist & _ & Hfiles & _).
  exists (stats run.2), run.2. split; [exact Hrun|].
  split; [by rewrite Hst|]. split; [exact Hhist|].
  apply Hfiles. vm_compute. reflexivity.
Defined.

(** ** Starting the program *)

(** X4. Exclusion patterns do not survive a restart.  Whatever the
    configuration file holds, a [FileOrganizer] is constructed with an
    empty pattern list: the patterns [load_config] has read are
    overwritten by the empty list that [__init__] assigns next.  So after
    [save_config] has written file types and patterns, a new organizer
    has the file types saved but none of the patterns; the file itself
    still holds them. *)
Theorem saved_patterns_are_not_reloaded (s : state) :
  (∀ contents s0,
     ∃ s2, __init__ contents s0 = (Ok tt, s2)
       ∧ excluded_patterns s2 = []
       ∧ operation_history s2 = []
       ∧ file_types s2 = match contents with
                         | Some (Parsed (Some saved) _) => saved
                         | _ => default_file_types
                         end)
  ∧ (config_writable s = true →
     ∃ s1 s2,
       save_config s = (Ok tt, s1)
       ∧ read_config s1
         = Some (Parsed (Some (file_types s)) (Some (excluded_patterns s)))
       ∧ (load_config (read_config s1) s1).1 = Ok (file_types s)
       ∧ excluded_patterns (load_config (read_config s1) s1).2 = excluded_patterns s
       ∧ __init__ (read_config s1) s1 = (Ok tt, s2)
       ∧ file_types s2 = file_types s
       ∧ excluded_patterns s2 = []
       ∧ config_file s2 = Some (file_types s, excluded_patterns s)
       ∧ fs s2 = fs s).
Proof.
  split.
  - intros contents s0. unfold __init__, load_config.
    destruct contents as [[|[saved|] [patterns|]]|];
      unfold bind, modify, ret; eexists; (split; [reflexivity|done]).
  - intros Hw. unfold save_config. rewrite Hw.
    eexists _, _. split; [reflexivity|].
    unfold __init__, load_config, read_config, bind, modify, ret. simpl.
    repeat split; reflexivity.
Qed.

Lemma saved_patterns_are_not_reloaded_witness :
  ∃ s1 s2,
    save_config hidden_file = (Ok tt, s1)
    ∧ __init__ (read_config s1) s1 = (Ok tt, s2)
    ∧ excluded_patterns hidden_file = ["^\."]
    ∧ excluded_patterns s2 = [].
Proof.
  destruct (proj2 (saved_patterns_are_not_reloaded hidden_file)
              ltac:(vm_compute; reflexivity))
    as (s1 & s2 & Hsave & _ & _ & _ & Hinit & _ & Hpats & _).
  exists s1, s2. split; [exact Hsave|]. split; [exact Hinit|].
  split; [vm_compute; reflexivity|exact Hpats].
Defined.

Section CommandLine.
Context {env : Env}.




End CommandLine.

(** ** The first version of the script *)




(** ** Editing the categories *)

Lemma lower_char_idem (c : ascii) : Py.lower_char (Py.lower_char c) = Py.lower_char c.
Proof.
  unfold Py.lower_char.
  destruct ((65 <=? nat_of_ascii c) && (nat_of_ascii c <=? 90)) eqn:Hup.
  - apply andb_true_iff in Hup as [H1 H2].
    apply Nat.leb_le in H1. apply Nat.leb_le in H2.
    rewrite nat_ascii_embedding by lia.
    assert ((65 <=? nat_of_ascii c + 32) && (nat_of_ascii c + 32 <=? 90) = false) as ->.
    { apply andb_false_iff. right. apply Nat.leb_gt. lia. }
    done.
  - by rewrite Hup.
Qed.

Lemma lower_idem (s : string) : Py.lower (Py.lower s) = Py.lower s.
Proof. induction s as [|c s IH]; simpl; [done|]. by rewrite lower_char_idem, IH. Qed.

Lemma lower_app (a b : string) : Py.lower (a +:+ b) = Py.lower a +:+ Py.lower b.
Proof. induction a as [|c a IH]; simpl; [done|]. by rewrite IH. Qed.

Lemma lower_length (s : string) : String.length (Py.lower s) = String.length s.
Proof. induction s as [|c s IH]; simpl; [done|]. by rewrite IH. Qed.

Lemma str_app_inj_length (a1 b1 a2 b2 : string) :
  String.length a1 = String.length a2 →
  a1 +:+ b1 = a2 +:+ b2 → a1 = a2 ∧ b1 = b2.
Proof.
  revert a2. induction a1 as [|c a1 IH]; intros [|c2 a2] Hlen; try done.
  simpl in Hlen. injection Hlen as Hlen. rewrite !str_app_cons.
  intros [= -> E]. by destruct (IH a2 Hlen E) as [-> ->].
Qed.

(** Only the file name is put in lower case (line 135): an extension
    that holds a capital letter ends no lower-cased name. *)
Lemma extension_with_capital_never_matches (filename ext : string) :
  ¬ lowercase ext → Py.endswith (Py.lower filename) ext = false.
Proof.
  intros Hcap. apply not_true_iff_false. intros Hend.
  apply endswith_spec in Hend as [pre E]. apply Hcap. unfold lowercase.
  pose proof (lower_idem filename) as Hidem. rewrite E, lower_app in Hidem.
  apply str_app_inj_length in Hidem as [_ ?]; [done|apply lower_length].
Qed.

Lemma dict_has_false {V} (key : string) (d : list (string * V)) :
  dict_has key d = false → key ∉ d.*1.
Proof.
  unfold dict_has. intros Hno Hin. apply not_true_iff_false in Hno. apply Hno.
  apply existsb_exists. exists key. split; [by apply list_elem_of_In|].
  apply String.eqb_refl.
Qed.

Lemma dict_set_new {V} (key : string) (value : V) (d : list (string * V)) :
  key ∉ d.*1 → dict_set key value d = d ++ [(key, value)].
Proof.
  induction d as [|[k v] d IH]; intros Hnew; simpl; [done|].
  rewrite fmap_cons, not_elem_of_cons in Hnew. destruct Hnew as [Hk Hd].
  destruct (String.eqb_spec k key) as [->|_]; [done|]. by rewrite IH.
Qed.

Lemma first_matching_folder_dead_end (R : list (string * list string))
    (category : string) (exts : list string) (f : string) :
  existsb (λ ext, Py.endswith (Py.lower f) ext) exts = false →
  first_matching_folder (R ++ [(category, exts)]) f = first_matching_folder R f.
Proof.
  intros Hdead. induction R as [|[c es] R IH]; simpl.
  - by rewrite Hdead.
  - by destruct (existsb _ es).
Qed.

(** X7. [add_file_type_category] stores the extensions as typed, with a
    dot in front but in the letter case of the input, while a run compares
    them with the lower-cased file name.  So a category whose extensions
    were all typed with a capital letter receives no file: every file name
    is classified as it was before the category was added. *)
Theorem category_typed_in_capitals_gets_no_file
    (typed_name typed_extensions : string) (s s' : state) (r : result unit) :
  CLI.add_file_type_category typed_name typed_extensions s = (r, s') →
  Forall (λ ext, ¬ lowercase ext) (parse_extensions (Py.strip typed_extensions)) →
  r = Ok tt
  ∧ (file_types s' = file_types s
     ∨ file_types s'
       = file_types s
         ++ [(Py.strip typed_name, parse_extensions (Py.strip typed_extensions))])
  ∧ ∀ filename, classify (file_types s') filename = classify (file_types s) filename.
Proof.
  unfold CLI.add_file_type_category. intros Hrun Hcaps.
  destruct (String.eqb (Py.strip typed_name) "");
    [injection Hrun as <- <-; split; [done|]; split; [by left|done]|].
  unfold bind, get_state in Hrun.
  destruct (dict_has (Py.strip typed_name) (file_types s)) eqn:Hhas;
    [injection Hrun as <- <-; split; [done|]; split; [by left|done]|].
  destruct (String.eqb (Py.strip typed_extensions) "");
    [injection Hrun as <- <-; split; [done|]; split; [by left|done]|].
  unfold modify in Hrun. injection Hrun as <- <-. cbn [file_types set_file_types].
  rewrite dict_set_new by by apply dict_has_false.
  split; [done|]. split; [by right|]. intros filename. unfold classify.
  rewrite first_matching_folder_dead_end; [done|].
  apply not_true_iff_false. intros Hex. apply existsb_exists in Hex as (ext & Hin & Hend).
  apply list_elem_of_In in Hin. rewrite Forall_forall in Hcaps.
  by rewrite (extension_with_capital_never_matches _ _ (Hcaps ext Hin)) in Hend.
Qed.

Lemma category_typed_in_capitals_gets_no_file_witness :
  ∃ s', @CLI.add_file_type_category "Scans" "TIF, .BMP" three_files = (Ok tt, s')
    ∧ file_types s' = default_file_types ++ [("Scans", [".TIF"; ".BMP"])]
    ∧ classify (file_types s') "page.TIF" = "Others".
Proof.
  pose (run := @CLI.add_file_type_category "Scans" "TIF, .BMP" three_files).
  assert (Hrun : run = (Ok tt, run.2)) by (vm_compute; reflexivity).
  destruct (category_typed_in_capitals_gets_no_file "Scans" "TIF, .BMP"
              three_files run.2 (Ok tt) Hrun
              ltac:(repeat constructor; vm_compute; discriminate))
    as (_ & _ & Hsame).
  exists run.2. split; [exact Hrun|]. split; [vm_compute; reflexivity|].
  rewrite (Hsame "page.TIF"). vm_compute. reflexivity.
Defined.

Lemma dict_del_other (R : list (string * list string)) (category f : string) :
  first_matching_folder R f ≠ Some category →
  first_matching_folder (dict_del category R) f = first_matching_folder R f.
Proof.
  induction R as [|[c es] R IH]; simpl; [done|].
  destruct (String.eqb_spec c category) as [->|Hne].
  - destruct (existsb _ es); [done|]. done.
  - simpl. destruct (existsb _ es); [done|]. apply IH.
Qed.

Lemma dict_del_keys {V} (d : list (string * V)) (key : string) :
  NoDup d.*1 → (key ∉ (dict_del key d).*1)
  ∧ ∀ k, k ∈ (dict_del key d).*1 → k ∈ d.*1.
Proof.
  induction d as [|[k v] d IH]; intros Hnd; simpl.
  - split; [apply not_elem_of_nil|done].
  - rewrite fmap_cons in Hnd. apply NoDup_cons in Hnd as [Hk Hnd].
    destruct (String.eqb_spec k key) as [->|Hne].
    + split; [done|]. intros k' Hk'. by right.
    + destruct (IH Hnd) as [Hgone Hsub]. rewrite fmap_cons. split.
      * rewrite not_elem_of_cons. split; [by intros ->|done].
      * intros k' Hk'. apply elem_of_cons in Hk' as [->|Hk']; [by left|].
        right. by apply Hsub.
Qed.

(** X8. [delete_file_type_category] never raises.  It changes the file
    types only when the number typed is that of a category shown and the
    answer to the prompt starts with [y]; the category with that number
    (counted from 1) is then gone and no other is.  A file that did not
    fall to the deleted category is classified as before; the
    configuration file is not written. *)
Theorem deleting_a_category_keeps_the_others (typed_number typed_answer : string)
    (s s' : state) (r : result unit) :
  NoDup (file_types s).*1 →
  CLI.delete_file_type_category typed_number typed_answer s = (r, s') →
  r = Ok tt
  ∧ config_file s' = config_file s
  ∧ (file_types s' = file_types s
     ∨ ∃ (i : nat) (category : string),
         PyStr.int (Py.strip typed_number) = Some (Z.of_nat i + 1)%Z
         ∧ (file_types s).*1 !! i = Some category
         ∧ prompt_yes_no typed_answer false = true
         ∧ (category ∉ (file_types s').*1)
         ∧ (∀ c, c ∈ (file_types s').*1 → c ∈ (file_types s).*1)
         ∧ ∀ filename,
             first_matching_folder (file_types s) filename ≠ Some category →
             classify (file_types s') filename = classify (file_types s) filename).
Proof.
  intros Hnd. unfold CLI.delete_file_type_category, bind, get_state.
  destruct (PyStr.int (Py.strip typed_number)) as [number|];
    [|intros [= <- <-]; split; [done|]; split; [done|by left]].
  destruct ((0 <=? number - 1)%Z && _) eqn:Hrange;
    [|intros [= <- <-]; split; [done|]; split; [done|by left]].
  destruct ((file_types s).*1 !! Z.to_nat (number - 1)) as [category|] eqn:Hcat;
    [|intros [= <- <-]; split; [done|]; split; [done|by left]].
  destruct (prompt_yes_no typed_answer false) eqn:Hyes;
    [|intros [= <- <-]; split; [done|]; split; [done|by left]].
  unfold modify. intros [= <- <-]. split; [done|]. split; [done|]. right.
  apply andb_true_iff in Hrange as [Hlo _]. apply Z.leb_le in Hlo.
  exists (Z.to_nat (number - 1)), category. cbn [file_types set_file_types].
  destruct (dict_del_keys (file_types s) category Hnd) as [Hgone Hsub].
  split; [f_equal; lia|]. split; [done|]. split; [done|]. split; [done|].
  split; [done|]. intros filename Hother. unfold classify.
  by rewrite dict_del_other.
Qed.

Lemma deleting_a_category_keeps_the_others_witness :
  ∃ s', CLI.delete_file_type_category "2" "yes" three_files = (Ok tt, s')
    ∧ (file_types s').*1
      = ["Videos"; "Music"; "Documents"; "Archives"; "Code"; "Executables"]
    ∧ classify (file_types s') "a.mp3" = "Music".
Proof.
  pose (run := CLI.delete_file_type_category "2" "yes" three_files).
  assert (Hrun : run = (Ok tt, run.2)) by (vm_compute; reflexivity).
  destruct (deleting_a_category_keeps_the_others "2" "yes" three_files run.2 (Ok tt)
              ltac:(apply (bool_decide_unpack _); vm_compute; exact I)
              Hrun)
    as (_ & _ & [Hsame|(i & category & Hnum & Hcat & _ & _ & _ & Hothers)]).
  - vm_compute in Hsame. discriminate Hsame.
  - exists run.2. split; [exact Hrun|]. split; [vm_compute; reflexivity|].
    assert (Htyped : PyStr.int (Py.strip "2") = Some 2%Z) by (vm_compute; reflexivity).
    rewrite Htyped in Hnum. injection Hnum as Hi.
    assert (i = 1) as -> by lia.
    vm_compute in Hcat. injection Hcat as <-.
    rewrite (Hothers "a.mp3"); vm_compute; [reflexivity|discriminate].
Defined.

(** ** Editing the exclusion patterns *)

Section Patterns.
Context {env : Env}.

(** X9. [delete_exclude_pattern] never raises and touches neither files
    nor file types.  It changes the pattern list only when the number
    typed is that of a pattern shown and the answer to the prompt starts
    with [y]: the pattern with that number (counted from 1) is then taken
    out, the others keep their order, and the configuration is saved with
    the shorter list.  With valid patterns stored, the patterns left are
    valid and exclude no file that was not excluded before. *)
Theorem deleting_a_pattern_excludes_no_more (typed_number typed_answer : string)
    (s : state) :
  ∃ s',
    CLI.delete_exclude_pattern typed_number typed_answer s = (Ok tt, s')
    ∧ file_types s' = file_types s
    ∧ fs s' = fs s
    ∧ ((excluded_patterns s' = excluded_patterns s ∧ config_file s' = config_file s)
       ∨ ∃ (i : nat) (pattern : string),
           PyStr.int (Py.strip typed_number) = Some (Z.of_nat i + 1)%Z
           ∧ excluded_patterns s !! i = Some pattern
           ∧ prompt_yes_no typed_answer false = true
           ∧ excluded_patterns s'
             = take i (excluded_patterns s) ++ drop (S i) (excluded_patterns s)
           ∧ (config_writable s = true →
              config_file s' = Some (file_types s, excluded_patterns s')))
    ∧ (Forall (λ p, re_valid p = true) (excluded_patterns s) →
       Forall (λ p, re_valid p = true) (excluded_patterns s')
       ∧ ∀ filename,
           is_excluded_in (excluded_patterns s') filename = Ok true →
           is_excluded_in (excluded_patterns s) filename = Ok true).
Proof.
  assert (Hnothing : ∃ s', (Ok tt, s) = (Ok tt, s')
    ∧ file_types s' = file_types s
    ∧ fs s' = fs s
    ∧ ((excluded_patterns s' = excluded_patterns s ∧ config_file s' = config_file s)
       ∨ ∃ (i : nat) (pattern : string),
           PyStr.int (Py.strip typed_number) = Some (Z.of_nat i + 1)%Z
           ∧ excluded_patterns s !! i = Some pattern
           ∧ prompt_yes_no typed_answer false = true
           ∧ excluded_patterns s'
             = take i (excluded_patterns s) ++ drop (S i) (excluded_patterns s)
           ∧ (config_writable s = true →
              config_file s' = Some (file_types s, excluded_patterns s')))
    ∧ (Forall (λ p, re_valid p = true) (excluded_patterns s) →
       Forall (λ p, re_valid p = true) (excluded_patterns s')
       ∧ ∀ filename,
           is_excluded_in (excluded_patterns s') filename = Ok true →
           is_excluded_in (excluded_patterns s) filename = Ok true)).
  { exists s. split; [done|]. split; [done|]. split; [done|]. split; [by left|done]. }
  unfold CLI.delete_exclude_pattern, bind, get_state.
  case_bool_decide as Hempty; [exact Hnothing|].
  destruct (PyStr.int (Py.strip typed_number)) as [number|]; [|exact Hnothing].
  destruct ((0 <=? number - 1)%Z && _) eqn:Hrange; [|exact Hnothing].
  destruct (prompt_yes_no typed_answer false) eqn:Hyes; [|exact Hnothing].
  clear Hnothing.
  apply andb_true_iff in Hrange as [Hlo Hhi].
  apply Z.leb_le in Hlo. apply Z.ltb_lt in Hhi.
  set (i := Z.to_nat (number - 1)).
  assert (Hi : i < length (excluded_patterns s)) by lia.
  destruct (lookup_lt_is_Some_2 _ _ Hi) as [pattern Hpattern].
  unfold modify, save_config. cbn [config_writable set_excluded_patterns].
  assert (Hsub : ∀ p, p ∈ delete i (excluded_patterns s) → p ∈ excluded_patterns s).
  { intros p Hp. eapply elem_of_sublist; [done|apply sublist_delete]. }
  assert (Hless :
    Forall (λ p, re_valid p = true) (excluded_patterns s) →
    Forall (λ p, re_valid p = true) (delete i (excluded_patterns s))
    ∧ ∀ filename,
        is_excluded_in (delete i (excluded_patterns s)) filename = Ok true →
        is_excluded_in (excluded_patterns s) filename = Ok true).
  { intros Hvalid.
    assert (Hvalid' : Forall (λ p, re_valid p = true) (delete i (excluded_patterns s))).
    { rewrite Forall_forall in Hvalid |- *. intros p Hp. by apply Hvalid, Hsub. }
    split; [done|]. intros filename Hex.
    destruct (is_excluded_in_valid _ filename Hvalid') as (b' & Hb' & Hiff').
    destruct (is_excluded_in_valid _ filename Hvalid) as (b & Hb & Hiff).
    rewrite Hb. f_equal. apply Hiff.
    rewrite Hb' in Hex. injection Hex as ->.
    destruct (proj1 Hiff' eq_refl) as (p & Hp & Hfound). exists p.
    split; [by apply Hsub|done]. }
  destruct (config_writable s) eqn:Hw; eexists; (split; [reflexivity|]);
    cbn [file_types fs excluded_patterns config_file logging set_config_file
         set_excluded_patterns];
    (split; [done|]); (split; [done|]); (split; [|exact Hless]); right;
    exists i, pattern; (split; [f_equal; lia|]); (split; [done|]);
    (split; [done|]); (split; [apply delete_take_drop|]); done.
Qed.

End Patterns.

Lemma deleting_a_pattern_excludes_no_more_witness :
  ∃ s', CLI.delete_exclude_pattern "1" "y" hidden_file = (Ok tt, s')
    ∧ excluded_patterns s' = []
    ∧ config_file s' = Some (default_file_types, [])
    ∧ ∀ filename, @is_excluded_in Demo.env (excluded_patterns s') filename = Ok true →
        @is_excluded_in Demo.env ["^\."] filename = Ok true.
Proof.
  destruct (deleting_a_pattern_excludes_no_more (env := Demo.env) "1" "y" hidden_file)
    as (s' & Hrun & _ & _ & _ & Hless).
  exists s'. split; [exact Hrun|].
  destruct (Hless ltac:(repeat constructor)) as [_ Hfewer].
  split; [|split; [|exact Hfewer]];
    vm_compute in Hrun; injection Hrun as <-; vm_compute; reflexivity.
Defined.

(** ** Undoing a whole run *)


Section UndoAll.
Context {env : Env}.



End UndoAll.


(** ** Undoing a copy *)

(** Undoing a recorded copy whose file is still at its destination. *)
Lemma undo_of_copy_succeeds (s : state) (h : list operation) (op : operation)
    (data : string) (mtime : Z) :
  operation_history s = h ++ [op] →
  op_operation op = "copy" →
  fs s !! op_destination op = Some (File data mtime) →
  op_destination op ∉ locked s →
  undo_last_operation s
  = (Ok true,
     logging (InfoUndoneCopy (op_destination op))
       (set_fs (delete (op_destination op) (fs s)) (set_operation_history h s))).
Proof.
  intros Hhist Hcopy Hdst Hfree.
  destruct (undo_pop h op s Hhist) as [Hlast Hrest].
  unfold undo_last_operation, bind, get_state. rewrite Hlast, Hrest.
  unfold modify, try_except, bind, get_state, ret.
  rewrite Hcopy. cbn [String.eqb Ascii.eqb Bool.eqb].
  assert (OS.path_exists (op_destination op) (set_operation_history h s) = true)
    as -> by (apply path_exists_true; by eexists).
  unfold OS.remove. cbn [locked fs set_operation_history].
  rewrite bool_decide_eq_false_2 by done. by rewrite Hdst.
Qed.

Section UndoCopy.
Context {env : Env}.

Lemma copies_step (directory : string) (organize_by_date : bool)
    (sF : state) (x : string) (rest : list string) (s1 s2 : state) :
  copies_inv directory sF (x :: rest) s1 →
  organize_entry directory organize_by_date true x s1 = (Ok tt, s2) →
  copies_inv directory sF rest s2.
Proof.
  intros (Hlisted & Hkept & ops & Hhist & Hlast) Hstep.
  assert (Hrest : ∀ f, f ∈ rest → is_Some (fs sF !! Py.join directory f)).
  { intros f Hf. apply Hlisted. by right. }
  assert (Hgrow : ∀ sm,
            (∀ p n, fs s1 !! p = Some n → fs sm !! p = Some n) →
            operation_history sm = operation_history s1 →
            copies_inv directory sF rest sm).
  { intros sm Hkeep Hh. split; [done|]. split; [by auto|].
    exists ops. rewrite Hh. split; [done|]. intros op Hop.
    destruct (Hlast op Hop) as (f & data & mtime & ? & ? & ? & Hdst & ?).
    exists f, data, mtime. repeat split; try done. by apply Hkeep. }
  apply organize_entry_outcome in Hstep.
  inversion Hstep as [ | | | | | data mtime sm dest_dir ?? Hfile Hprep ?
                     | data mtime sm dest_dir ?? Hfile Hprep ?]; subst.
  - by apply Hgrow.
  - by apply (Hgrow (logging _ (set_stats _ s1))).
  - apply prepared_fields in Hprep as (Hsm & Hfs & _ & _).
    assert (Hfree : fs sm !! final = None).
    { apply path_exists_false, resolve_conflict_spec. }
    assert (Hsrc : fs sm !! Py.join directory x = Some (File data mtime)).
    { destruct (Hfs (Py.join directory x)) as [->|[? ?]]; congruence. }
    split; [done|]. split.
    + intros p n Hp. cbn [fs set_stats set_operation_history logging set_fs].
      assert (Hpm : fs sm !! p = Some n).
      { apply Hkept in Hp. destruct (Hfs p) as [->|[? ?]]; congruence. }
      rewrite lookup_insert_ne by congruence. done.
    + exists (ops ++ [mkOperation "copy" (Py.join directory x) final]).
      cbn [operation_history set_stats set_operation_history].
      assert (operation_history sm = operation_history s1) as -> by by rewrite Hsm.
      rewrite Hhist, app_assoc. split; [done|].
      intros op Hop. rewrite last_snoc in Hop. injection Hop as <-.
      exists x, data, mtime. cbn [op_operation op_source op_destination].
      cbn [fs set_stats set_operation_history logging set_fs].
      split; [done|]. split; [done|]. split.
      * destruct (Hlisted x ltac:(left)) as [n Hn].
        pose proof (Hkept _ _ Hn) as Hn1. congruence.
      * split; [by rewrite lookup_insert_eq|].
        destruct (fs sF !! final) as [n|] eqn:Hold; [|done].
        apply Hkept in Hold. destruct (Hfs final) as [E|[? ?]]; congruence.
  - apply prepared_fields in Hprep as (Hsm & Hfs & _ & _).
    apply (Hgrow (logging _ (set_stats _ sm))).
    + intros p n Hp. cbn [fs logging set_stats].
      destruct (Hfs p) as [->|[? ?]]; congruence.
    + by rewrite Hsm.
Qed.

(** X11. After a copying run that recorded at least one operation, the
    record made last is a copy of a file of the directory; that file is
    still at its place and its copy, with the same bytes and modification
    time, is at the recorded destination.  One [undo_last_operation] then
    deletes exactly that copy (provided the process may touch it), answers
    true and removes the record; the original and every other path are as
    the run left them. *)
Theorem undo_removes_the_last_copy (directory : string) (organize_by_date : bool)
    (s s1 : state) (st : Stats) :
  organize_files directory organize_by_date true s = (Ok st, s1) →
  ∀ ops op, operation_history s1 = operation_history s ++ ops ++ [op] →
  ∃ filename data mtime,
    op_operation op = "copy"
    ∧ op_source op = Py.join directory filename
    ∧ fs s !! op_source op = Some (File data mtime)
    ∧ fs s1 !! op_source op = Some (File data mtime)
    ∧ fs s1 !! op_destination op = Some (File data mtime)
    ∧ fs s !! op_destination op = None
    ∧ (op_destination op ∉ locked s1 →
       ∃ s2, undo_last_operation s1 = (Ok true, s2)
         ∧ fs s2 = delete (op_destination op) (fs s1)
         ∧ fs s2 !! op_source op = Some (File data mtime)
         ∧ operation_history s2 = operation_history s ++ ops).
Proof.
  intros Hrun ops op Hops.
  apply organize_files_Ok in Hrun as (sF & names & Hadd & Hlist & Hloop & ->).
  apply listdir_names in Hlist as [Hnodup Hnames].
  assert (Hinv : copies_inv directory sF [] s1).
  { refine (for_each_ind _ (copies_inv directory sF) _ names sF s1 _ Hloop).
    - intros x rest sa sb. apply copies_step.
    - split; [intros f Hf; by apply Hnames|]. split; [done|].
      exists []. rewrite app_nil_r. done. }
  destruct Hinv as (_ & Hkept & ops' & Hhist & Hlast).
  assert (HhF : operation_history sF = operation_history s)
    by (destruct Hadd as [_ ->]; done).
  rewrite HhF, Hops in Hhist. apply app_inv_head in Hhist. subst ops'.
  destruct (Hlast op (last_snoc _ _))
    as (filename & data & mtime & Hcopy & Hsrc & Hlisted & Hdst & Hnew).
  pose proof (Hkept _ _ Hlisted) as Hsrc1.
  assert (Hne : op_destination op ≠ op_source op) by congruence.
  assert (Hnew' : fs s !! op_destination op = None).
  { destruct Hadd as [Hfs _]. destruct (Hfs (op_destination op)) as [E|[E _]].
    - rewrite Hnew in E. done.
    - done. }
  apply (dirs_added_file _ _ _ _ _ Hadd) in Hlisted. cbn [fs set_stats] in Hlisted.
  exists filename, data, mtime.
  split; [done|]. split; [done|]. split; [done|]. split; [done|]. split; [done|].
  split; [done|]. intros Hfree.
  rewrite app_assoc in Hops.
  pose proof (undo_of_copy_succeeds s1 _ op data mtime Hops Hcopy Hdst Hfree)
    as Hundo.
  eexists. split; [exact Hundo|].
  cbn [fs operation_history logging set_fs set_operation_history].
  split; [done|]. split; [|done]. by rewrite lookup_delete_ne.
Qed.

End UndoCopy.

Lemma undo_removes_the_last_copy_witness :
  ∃ s1 s2 op,
    (@organize_files Demo.env "/d" false true three_files).2 = s1
    ∧ last (operation_history s1) = Some op
    ∧ undo_last_operation s1 = (Ok true, s2)
    ∧ fs s2 !! op_destination op = None
    ∧ fs s2 !! op_source op = fs three_files !! op_source op.
Proof.
  pose (run := @organize_files Demo.env "/d" false true three_files).
  assert (Hrun : run = (Ok (stats run.2), run.2)) by (vm_compute; reflexivity).
  destruct (undo_removes_the_last_copy (env := Demo.env) "/d" false three_files
              run.2 (stats run.2) Hrun
              [mkOperation "copy" "/d/c.unknownext" "/d/Others/c.unknownext";
               mkOperation "copy" "/d/a.jpg" "/d/Photos/a.jpg"]
              (mkOperation "copy" "/d/b.txt" "/d/Documents/b.txt")
              ltac:(vm_compute; reflexivity))
    as (filename & data & mtime & _ & _ & Hbefore & _ & _ & _ & Hundo).
  destruct (Hundo ltac:(vm_compute; intros Hin; discriminate Hin))
    as (s2 & Hback & Hfs & Hsame & _).
  exists run.2, s2, (mkOperation "copy" "/d/b.txt" "/d/Documents/b.txt").
  split; [reflexivity|]. split; [vm_compute; reflexivity|].
  split; [exact Hback|]. split.
  - rewrite Hfs. apply lookup_delete_eq.
  - rewrite Hsame. symmetry. exact Hbefore.
Defined.

(** ** Stripping, splitting and joining *)

Lemma rev_app_spec (a b : string) : String.rev_app a b = String.rev a +:+ b.
Proof.
  unfold String.rev. revert b. induction a as [|c a IH]; intros b; simpl; [done|].
  rewrite (IH (String c b)), (IH (String c "")), str_app_assoc. done.
Qed.

Lemma rev_cons (c : ascii) (s : string) :
  String.rev (String c s) = String.rev s +:+ String c "".
Proof. unfold String.rev at 1. simpl. apply rev_app_spec. Qed.

Lemma rev_app (a b : string) : String.rev (a +:+ b) = String.rev b +:+ String.rev a.
Proof.
  induction a as [|c a IH].
  - by rewrite str_app_nil_l, str_app_nil_r.
  - by rewrite str_app_cons, !rev_cons, IH, str_app_assoc.
Qed.

Lemma rev_rev (s : string) : String.rev (String.rev s) = s.
Proof.
  induction s as [|c s IH]; [done|]. by rewrite rev_cons, rev_app, IH.
Qed.

Lemma lstrip_length (s : string) : String.length (Py.lstrip s) ≤ String.length s.
Proof.
  induction s as [|c s IH]; simpl; [done|].
  destruct (Py.is_space c); simpl; lia.
Qed.

Lemma lstrip_nonblank (c : ascii) (s : string) :
  Py.is_space c = false → Py.lstrip (String c s) = String c s.
Proof. intros Hc. simpl. by rewrite Hc. Qed.

Lemma lstrip_result (s : string) :
  Py.lstrip s = "" ∨ ∃ c s', Py.lstrip s = String c s' ∧ Py.is_space c = false.
Proof.
  induction s as [|c s IH]; simpl; [by left|].
  destruct (Py.is_space c) eqn:Hc; [done|]. right. by exists c, s.
Qed.

Lemma lstrip_fixed_inv (s : string) :
  Py.lstrip s = s → s = "" ∨ ∃ c s', s = String c s' ∧ Py.is_space c = false.
Proof. intros E. rewrite <- E. apply lstrip_result. Qed.

Lemma lstrip_lstrip (s : string) : Py.lstrip (Py.lstrip s) = Py.lstrip s.
Proof.
  destruct (lstrip_result s) as [->|(c & s' & -> & Hc)]; [done|].
  by apply lstrip_nonblank.
Qed.

Lemma lstrip_before_nonblank (a : string) (c : ascii) (b : string) :
  Py.is_space c = false →
  Py.lstrip (a +:+ String c b) = Py.lstrip a +:+ String c b.
Proof.
  intros Hc. induction a as [|x a IH].
  - rewrite str_app_nil_l. by apply lstrip_nonblank.
  - rewrite str_app_cons. simpl. destruct (Py.is_space x); [done|].
    by rewrite str_app_cons.
Qed.

Lemma strip_cons (c : ascii) (t : string) :
  Py.is_space c = false →
  Py.strip (String c t) = String c (String.rev (Py.lstrip (String.rev t))).
Proof.
  intros Hc. unfold Py.strip. rewrite lstrip_nonblank by done.
  rewrite rev_cons, lstrip_before_nonblank by done.
  by rewrite rev_app.
Qed.

Lemma strip_fixed (s : string) :
  Py.lstrip s = s → Py.lstrip (String.rev s) = String.rev s → Py.strip s = s.
Proof. intros H1 H2. unfold Py.strip. by rewrite H1, H2, rev_rev. Qed.

Lemma strip_lstrip (s : string) : Py.strip (Py.lstrip s) = Py.strip s.
Proof. unfold Py.strip. by rewrite lstrip_lstrip. Qed.

Lemma strip_result (s : string) :
  Py.lstrip (Py.strip s) = Py.strip s
  ∧ Py.lstrip (String.rev (Py.strip s)) = String.rev (Py.strip s).
Proof.
  split.
  - rewrite <- strip_lstrip.
    destruct (lstrip_result s) as [->|(c & t & -> & Hc)]; [done|].
    rewrite strip_cons by done. by apply lstrip_nonblank.
  - unfold Py.strip. by rewrite rev_rev, lstrip_lstrip.
Qed.

Lemma strip_strip (s : string) : Py.strip (Py.strip s) = Py.strip s.
Proof. destruct (strip_result s). by apply strip_fixed. Qed.








Lemma split_whole (sep : ascii) (s : string) :
  PyStr.contains sep s = false → PyStr.split sep s = [s].
Proof.
  induction s as [|c s IH]; simpl; [done|].
  intros Hno. apply orb_false_iff in Hno as [Hc Hs]. by rewrite Hc, IH.
Qed.

Lemma split_at_sep (sep : ascii) (a b : string) :
  PyStr.contains sep a = false →
  PyStr.split sep (a +:+ String sep b) = a :: PyStr.split sep b.
Proof.
  induction a as [|c a IH]; intros Hno.
  - rewrite str_app_nil_l. simpl. by rewrite Ascii.eqb_refl.
  - simpl in Hno. apply orb_false_iff in Hno as [Hc Ha].
    rewrite str_app_cons. simpl. by rewrite Hc, IH.
Qed.

(** ** Extension lists as typed, stored and shown *)

Lemma dot_app (r : string) : "." +:+ r = String "." r.
Proof. reflexivity. Qed.

Lemma normal_extension_spec (ext : string) :
  normal_extension ext = true ↔
  ∃ rest, ext = String "." rest
    ∧ PyStr.lstrip_char "." rest = rest
    ∧ Py.strip ext = ext
    ∧ PyStr.contains "," ext = false.
Proof.
  unfold normal_extension. split.
  - destruct ext as [|c rest]; [done|].
    destruct (Ascii.eqb_spec c ".") as [->|Hne].
    + intros H. apply andb_true_iff in H as [H H3].
      apply andb_true_iff in H as [H1 H2].
      apply String.eqb_eq in H1. apply String.eqb_eq in H2.
      apply negb_true_iff in H3. by exists rest.
    + intros H. exfalso. apply Hne.
      destruct c as [[] [] [] [] [] [] [] []]; try discriminate H. reflexivity.
  - intros (rest & -> & H1 & H2 & H3).
    rewrite H1, H2, H3, !String.eqb_refl. done.
Qed.


Lemma lstrip_app_fixed (a b : string) :
  Py.lstrip a = a → a ≠ "" → Py.lstrip (a +:+ b) = a +:+ b.
Proof.
  intros Hfixed Hne. apply lstrip_fixed_inv in Hfixed as [?|(c & a' & -> & Hc)]; [done|].
  rewrite str_app_cons. by apply lstrip_nonblank.
Qed.

Lemma rev_nonempty (c : ascii) (s : string) : String.rev (String c s) ≠ "".
Proof.
  rewrite rev_cons. intros E. apply (f_equal String.length) in E.
  rewrite str_app_length in E. simpl in E. lia.
Qed.

Lemma join_of_normal (ext : string) (extensions : list string) :
  Forall (λ ext, normal_extension ext = true) (ext :: extensions) →
  let joined := PyStr.join ", " (ext :: extensions) in
  (∃ rest, joined = String "." rest)
  ∧ Py.lstrip (String.rev joined) = String.rev joined
  ∧ PyStr.split "," joined = ext :: (String " " <$> extensions).
Proof.
  revert ext. induction extensions as [|ext2 extensions IH]; intros ext Hnormal.
  - apply Forall_cons in Hnormal as [Hext _].
    apply normal_extension_spec in Hext as (rest & -> & _ & Hstrip & Hcomma).
    cbn [PyStr.join]. split; [by exists rest|]. split.
    + destruct (strip_result (String "." rest)) as [_ H]. by rewrite Hstrip in H.
    + by apply split_whole.
  - apply Forall_cons in Hnormal as [Hext Hrest].
    destruct (IH ext2 Hrest) as ([rest2 Hdot] & Hlast & Hsplit).
    apply normal_extension_spec in Hext as (rest & -> & _ & Hstrip & Hcomma).
    change (PyStr.join ", " (String "." rest :: ext2 :: extensions))
      with (String "." rest +:+ ", " +:+ PyStr.join ", " (ext2 :: extensions)).
    set (tail := PyStr.join ", " (ext2 :: extensions)) in *.
    cbv zeta. split; [by exists (rest +:+ ", " +:+ tail)|]. split.
    + rewrite rev_app, rev_app. rewrite str_app_assoc.
      apply lstrip_app_fixed; [done|]. rewrite Hdot. apply rev_nonempty.
    + change (", " +:+ tail) with (String "," (String " " tail)).
      rewrite split_at_sep by done. f_equal.
      cbn [PyStr.split]. cbn [Ascii.eqb Bool.eqb andb]. by rewrite Hsplit.
Qed.

Lemma strip_after_blank (s : string) : Py.strip (String " " s) = Py.strip s.
Proof. reflexivity. Qed.

(** What the settings tab shows for a list of extensions in that form
    reads back as the same list. *)
Lemma parse_entry_text (extensions : list string) :
  Forall (λ ext, normal_extension ext = true) extensions →
  parse_extensions (Py.strip (GUI.entry_text extensions)) = extensions.
Proof.
  intros Hnormal. destruct extensions as [|ext extensions]; [done|].
  destruct (join_of_normal ext extensions Hnormal) as ([rest Hdot] & Hlast & Hsplit).
  unfold GUI.entry_text. set (joined := PyStr.join ", " (ext :: extensions)) in *.
  assert (Hstrip : Py.strip (joined +:+ nl) = joined).
  { unfold Py.strip. rewrite Hdot, str_app_cons, lstrip_nonblank by done.
    rewrite <- str_app_cons, <- Hdot, rev_app.
    change (String.rev nl) with nl. unfold nl. rewrite str_app_cons, str_app_nil_l.
    change (Py.lstrip (String "010" (String.rev joined)))
      with (Py.lstrip (String.rev joined)).
    by rewrite Hlast, rev_rev. }
  rewrite Hstrip. unfold parse_extensions. rewrite Hsplit.
  assert (Hparts : Py.strip <$> ext :: (String " " <$> extensions) = ext :: extensions).
  { rewrite fmap_cons, <- list_fmap_compose. f_equal.
    - apply Forall_cons in Hnormal as [Hext _].
      by apply normal_extension_spec in Hext as (? & _ & _ & ? & _).
    - apply Forall_cons in Hnormal as [_ Hrest].
      rewrite <- (list_fmap_id extensions) at 2. apply Forall_fmap_ext_1.
      eapply Forall_impl; [exact Hrest|]. intros x Hx. cbn [compose].
      rewrite strip_after_blank.
      by apply normal_extension_spec in Hx as (? & _ & _ & ? & _). }
  rewrite Hparts.
  assert (Hall : filter (λ e : string, e ≠ "") (ext :: extensions) = ext :: extensions).
  { clear -Hnormal. induction Hnormal as [|x l Hx Hl IH]; [done|].
    rewrite filter_cons_True, IH; [done|].
    apply normal_extension_spec in Hx as (? & -> & _). done. }
  rewrite Hall. rewrite <- (list_fmap_id (ext :: extensions)) at 2.
  apply Forall_fmap_ext_1. eapply Forall_impl; [exact Hnormal|].
  intros x Hx. apply normal_extension_spec in Hx as (r & -> & Hr & _).
  cbn [PyStr.lstrip_char Ascii.eqb Bool.eqb andb]. by rewrite Hr, dot_app.
Qed.

Lemma dict_set_same {V} (d : list (string * V)) (key : string) (value : V) :
  NoDup d.*1 → (key, value) ∈ d → dict_set key value d = d.
Proof.
  induction d as [|[k v] d IH]; intros Hnd Hin; [by apply elem_of_nil in Hin|].
  rewrite fmap_cons in Hnd. apply NoDup_cons in Hnd as [Hk Hnd]. simpl in *.
  apply elem_of_cons in Hin as [[= -> ->]|Hin].
  - by rewrite String.eqb_refl.
  - destruct (String.eqb_spec k key) as [->|_].
    + exfalso. apply Hk. apply list_elem_of_fmap. by exists (key, value).
    + by rewrite IH.
Qed.

(** X13. Saving the settings tab as it was shown changes no category.
    When every stored extension is in the form [parse_extensions] writes
    (as the built-in ones are), what [save_settings] reads back from the
    text fields is what [create_settings_tab] put there, so the file types
    stay as they are and [save_settings] amounts to [save_config]. *)
Theorem saving_untouched_settings_keeps_them (s : state) :
  NoDup (file_types s).*1 →
  Forall (λ item, Forall (λ ext, normal_extension ext = true) item.2)
         (file_types s) →
  GUI.save_settings ((λ item, (item.1, GUI.entry_text item.2)) <$> file_types s) s
  = save_config s.
Proof.
  intros Hnd Hnormal. unfold GUI.save_settings, bind at 1.
  rewrite for_each_fixed; [done|].
  intros [category text] Hin.
  apply list_elem_of_fmap in Hin as ([c extensions] & [= -> ->] & Hin).
  unfold modify. cbn [fst snd].
  rewrite Forall_forall in Hnormal.
  rewrite parse_entry_text by apply (Hnormal _ Hin).
  rewrite dict_set_same by done. by destruct s.
Qed.

Lemma saving_untouched_settings_keeps_them_witness :
  GUI.save_settings
    ((λ item, (item.1, GUI.entry_text item.2)) <$> default_file_types) three_files
  = save_config three_files.
Proof.
  apply (saving_untouched_settings_keeps_them three_files).
  - apply (bool_decide_unpack _). vm_compute. exact I.
  - apply (bool_decide_unpack _). vm_compute. exact I.
Defined.

(** ** The two front ends *)

Section FrontEnds.
Context {env : Env}.

(** X14. The window and the terminal guard a run in the same way.  For a
    directory written without blanks around it, [start_organizing] and
    [handle_organize] do the same thing in every state: nothing when the
    path is empty or not an existing directory, nothing when files are to
    be moved and the user does not confirm, and otherwise one run whose
    exception, if any, is caught. *)
Theorem both_front_ends_guard_the_run_alike (directory : string)
    (organize_by_date copy confirmed : bool) (s : state) :
  Py.strip directory = directory →
  GUI.start_organizing directory organize_by_date copy confirmed s
  = handle_organize directory organize_by_date copy confirmed s
  ∧ ∃ s', handle_organize directory organize_by_date copy confirmed s = (Ok tt, s')
      ∧ (OS.path_isdir directory s = false ∨ (copy = false ∧ confirmed = false) →
         s' = s).
Proof.
  intros Hstrip. split.
  - unfold GUI.start_organizing, handle_organize, bind at 1 3, get_state.
    rewrite Hstrip. destruct (String.eqb directory ""); [done|].
    cbn [orb]. by destruct (OS.path_isdir directory s).
  - unfold handle_organize. rewrite Hstrip.
    destruct (String.eqb directory ""); [by exists s|].
    unfold bind at 1. unfold get_state.
    destruct (OS.path_isdir directory s) eqn:Hdir; cbn [negb]; [|by exists s].
    destruct copy, confirmed; cbn [negb andb]; [| | |by exists s].
    all: unfold try_except, bind, ret;
      destruct (organize_files directory organize_by_date _ s) as [[st|e] s1];
      exists s1; (split; [done|]); intros [?|[? ?]]; done.
Qed.

End FrontEnds.

Lemma both_front_ends_guard_the_run_alike_witness :
  @GUI.start_organizing Demo.env "/d" false true false three_files
  = @handle_organize Demo.env "/d" false true false three_files.
Proof.
  exact (proj1 (both_front_ends_guard_the_run_alike (env := Demo.env)
                  "/d" false true false three_files
                  ltac:(vm_compute; reflexivity))).
Defined.

(** ** The categories of the statistics *)

Section Domain.
Context {env : Env}.

Lemma classify_known (R : list (string * list string)) (f : string) :
  classify R f ∈ (list_to_set R.*1 ∪ {["Others"]} : gset string).
Proof.
  rewrite elem_of_union, elem_of_list_to_set, elem_of_singleton.
  unfold classify. destruct (first_matching_folder R f) as [c|] eqn:E; [|by right].
  destruct (String.eqb c ""); [by right|].
  left. by apply first_matching_folder_Some in E.
Qed.

(** X15. The statistics of a run that returns have a count for each
    configured category and for ["Others"], and for nothing else: no file
    is counted under a name that is not a category of the organizer. *)
Theorem run_counts_configured_categories_only (directory : string)
    (organize_by_date copy : bool) (s s' : state) (st : Stats) :
  organize_files directory organize_by_date copy s = (Ok st, s') →
  dom (categories st) = list_to_set (file_types s).*1 ∪ {["Others"]}
  ∧ file_types s' = file_types s.
Proof.
  intros Hrun.
  apply organize_files_Ok in Hrun as (sF & names & [_ HsF] & _ & Hloop & ->).
  set (known := (list_to_set (file_types s).*1 ∪ {["Others"]} : gset string)).
  refine (for_each_ind _
            (λ _ s1, dom (categories (stats s1)) = known
                     ∧ file_types s1 = file_types s)
            _ names sF s' _ Hloop).
  - intros x rest s1 s2 [Hdom Hft] Hstep.
    apply organize_entry_outcome in Hstep.
    inversion Hstep as [ | | | | | data mtime sm dest_dir ?? Hfile Hprep ?
                       | data mtime sm dest_dir ?? Hfile Hprep ?]; subst.
    + done.
    + done.
    + apply prepared_fields in Hprep as (Hsm & _). rewrite Hsm.
      cbn [stats file_types categories set_stats set_operation_history logging
           set_fs organized_incr size_add total_incr].
      split; [|done]. rewrite dom_insert_L, Hdom.
      pose proof (classify_known (file_types s1) x) as Hin.
      rewrite Hft in Hin |- *. fold known in Hin.
      apply subseteq_union_1_L. by apply singleton_subseteq_l.
    + apply prepared_fields in Hprep as (Hsm & _). rewrite Hsm. done.
  - rewrite HsF. cbn [stats file_types categories set_stats set_fs fresh_stats].
    split; [|done]. apply dom_gset_to_gmap.
Qed.

End Domain.

Lemma run_counts_configured_categories_only_witness :
  dom (categories (stats (@organize_files Demo.env "/d" false false three_files).2))
  = list_to_set default_file_types.*1 ∪ {["Others"]}.
Proof.
  pose (run := @organize_files Demo.env "/d" false false three_files).
  assert (Hrun : run = (Ok (stats run.2), run.2)) by (vm_compute; reflexivity).
  exact (proj1 (run_counts_configured_categories_only (env := Demo.env)
                  "/d" false false three_files run.2 (stats run.2) Hrun)).
Defined.

(** ** Changing the extensions of a category *)

Lemma dict_set_at {V} (d : list (string * V)) (i : nat) (key : string) (value : V) :
  NoDup d.*1 → d.*1 !! i = Some key → dict_set key value d = <[i := (key, value)]> d.
Proof.
  revert i. induction d as [|[k v] d IH]; intros i Hnd Hi; [done|].
  rewrite fmap_cons in Hnd, Hi. apply NoDup_cons in Hnd as [Hk Hnd].
  destruct i as [|i]; simpl in *.
  - injection Hi as ->. by rewrite String.eqb_refl.
  - destruct (String.eqb_spec k key) as [->|_].
    + exfalso. apply Hk. by eapply list_elem_of_lookup_2.
    + by rewrite (IH i Hnd Hi).
Qed.

Lemma insert_keeps_keys {V} (d : list (string * V)) (i : nat) (key : string)
    (value : V) :
  d.*1 !! i = Some key → (<[i := (key, value)]> d).*1 = d.*1.
Proof.
  intros Hi. rewrite list_fmap_insert. by apply list_insert_id.
Qed.

(** X16. [edit_file_type_category] never raises and does not write the
    configuration file.  It changes the file types only when the number
    typed is that of a category shown and the extensions typed are not
    blank: the category with that number (counted from 1) then gets the
    extensions as [parse_extensions] reads them, at the place it had, so
    the categories and their order of precedence stay as they were. *)
Theorem editing_a_category_keeps_its_place (typed_number typed_extensions : string)
    (s s' : state) (r : result unit) :
  NoDup (file_types s).*1 →
  CLI.edit_file_type_category typed_number typed_extensions s = (r, s') →
  r = Ok tt
  ∧ config_file s' = config_file s
  ∧ (file_types s').*1 = (file_types s).*1
  ∧ (file_types s' = file_types s
     ∨ ∃ (i : nat) (category : string),
         PyStr.int (Py.strip typed_number) = Some (Z.of_nat i + 1)%Z
         ∧ (file_types s).*1 !! i = Some category
         ∧ Py.strip typed_extensions ≠ ""
         ∧ file_types s'
           = <[i := (category, parse_extensions (Py.strip typed_extensions))]>
               (file_types s)).
Proof.
  intros Hnd. unfold CLI.edit_file_type_category, bind, get_state.
  destruct (PyStr.int (Py.strip typed_number)) as [number|];
    [|intros [= <- <-]; split; [done|]; split; [done|]; split; [done|by left]].
  destruct ((0 <=? number - 1)%Z && _) eqn:Hrange;
    [|intros [= <- <-]; split; [done|]; split; [done|]; split; [done|by left]].
  destruct ((file_types s).*1 !! Z.to_nat (number - 1)) as [category|] eqn:Hcat;
    [|intros [= <- <-]; split; [done|]; split; [done|]; split; [done|by left]].
  destruct (String.eqb_spec (Py.strip typed_extensions) "") as [|Hne];
    [intros [= <- <-]; split; [done|]; split; [done|]; split; [done|by left]|].
  unfold modify. intros [= <- <-]. cbn [file_types config_file set_file_types].
  apply andb_true_iff in Hrange as [Hlo _]. apply Z.leb_le in Hlo.
  rewrite (dict_set_at _ _ _ _ Hnd Hcat).
  split; [done|]. split; [done|]. split; [by apply insert_keeps_keys|].
  right. exists (Z.to_nat (number - 1)), category.
  split; [f_equal; lia|]. done.
Qed.

Lemma editing_a_category_keeps_its_place_witness :
  ∃ s', CLI.edit_file_type_category "2" "jpg, heic" three_files = (Ok tt, s')
    ∧ (file_types s').*1 = default_file_types.*1
    ∧ file_types s' !! 1 = Some ("Photos", [".jpg"; ".heic"]).
Proof.
  pose (run := CLI.edit_file_type_category "2" "jpg, heic" three_files).
  assert (Hrun : run = (Ok tt, run.2)) by (vm_compute; reflexivity).
  destruct (editing_a_category_keeps_its_place "2" "jpg, heic" three_files run.2 (Ok tt)
              ltac:(apply (bool_decide_unpack _); vm_compute; exact I) Hrun)
    as (_ & _ & Hkeys & _).
  exists run.2. split; [exact Hrun|]. split; [exact Hkeys|].
  vm_compute. reflexivity.
Defined.

(** X17. The two ways of adding a category differ on a name that is
    taken.  The terminal's [add_file_type_category] refuses it and
    changes nothing; the window's [add_category] takes it and replaces the
    extensions of the existing category, which keeps its place.  Neither
    writes the configuration file. *)
Theorem adding_a_category_that_exists (typed_name typed_extensions : string)
    (s : state) (i : nat) :
  NoDup (file_types s).*1 →
  (file_types s).*1 !! i = Some (Py.strip typed_name) →
  Py.strip typed_name ≠ "" →
  Py.strip typed_extensions ≠ "" →
  CLI.add_file_type_category typed_name typed_extensions s = (Ok tt, s)
  ∧ GUI.add_category typed_name typed_extensions s
    = (Ok tt,
       set_file_types
         (<[i := (Py.strip typed_name, parse_extensions (Py.strip typed_extensions))]>
            (file_types s)) s).
Proof.
  intros Hnd Hi Hname Hexts.
  apply String.eqb_neq in Hname. apply String.eqb_neq in Hexts. split.
  - unfold CLI.add_file_type_category. rewrite Hname. unfold bind, get_state.
    assert (dict_has (Py.strip typed_name) (file_types s) = true) as ->; [|done].
    unfold dict_has. apply existsb_exists. exists (Py.strip typed_name).
    split; [|apply String.eqb_refl].
    apply list_elem_of_In. by eapply list_elem_of_lookup_2.
  - unfold GUI.add_category. rewrite Hname, Hexts. unfold modify.
    by rewrite (dict_set_at _ _ _ _ Hnd Hi).
Qed.

Lemma adding_a_category_that_exists_witness :
  CLI.add_file_type_category "Music" "mid" three_files = (Ok tt, three_files)
  ∧ file_types (GUI.add_category "Music" "mid" three_files).2 !! 2
    = Some ("Music", [".mid"]).
Proof.
  destruct (adding_a_category_that_exists "Music" "mid" three_files 2
              ltac:(apply (bool_decide_unpack _); vm_compute; exact I)
              ltac:(vm_compute; reflexivity)
              ltac:(vm_compute; discriminate) ltac:(vm_compute; discriminate))
    as [Hcli Hgui].
  split; [exact Hcli|]. rewrite Hgui. vm_compute. reflexivity.
Defined.

(** X18. Deleting a category comes to the same in the window and in the
    terminal: [delete_category], confirmed, for a category that exists,
    and [delete_file_type_category], given the number under which that
    category is shown and an answer that starts with [y], leave the same
    state.  Without the confirmation both leave the state as it is. *)
Theorem both_front_ends_delete_alike (category typed_number typed_answer : string)
    (i : nat) (s : state) :
  (file_types s).*1 !! i = Some category →
  PyStr.int (Py.strip typed_number) = Some (Z.of_nat i + 1)%Z →
  CLI.delete_file_type_category typed_number typed_answer s
  = GUI.delete_category category (prompt_yes_no typed_answer false) s
  ∧ GUI.delete_category category false s = (Ok tt, s)
  ∧ GUI.delete_category category true s
    = (Ok tt, set_file_types (dict_del category (file_types s)) s).
Proof.
  intros Hcat Hnumber.
  assert (Hhas : dict_has category (file_types s) = true).
  { unfold dict_has. apply existsb_exists. exists category.
    split; [|apply String.eqb_refl].
    apply list_elem_of_In. by eapply list_elem_of_lookup_2. }
  assert (Hyes : GUI.delete_category category true s
                 = (Ok tt, set_file_types (dict_del category (file_types s)) s)).
  { unfold GUI.delete_category, bind, get_state. by rewrite Hhas. }
  split; [|done].
  unfold CLI.delete_file_type_category, bind at 1, get_state. rewrite Hnumber.
  replace (Z.of_nat i + 1 - 1)%Z with (Z.of_nat i) by lia.
  rewrite Nat2Z.id, Hcat.
  assert ((0 <=? Z.of_nat i)%Z
          && (Z.of_nat i <? Z.of_nat (length (file_types s).*1))%Z = true) as ->.
  { apply andb_true_iff. split; [apply Z.leb_le; lia|]. apply Z.ltb_lt.
    apply lookup_lt_Some in Hcat. lia. }
  destruct (prompt_yes_no typed_answer false); [by rewrite Hyes|done].
Qed.

Lemma both_front_ends_delete_alike_witness :
  CLI.delete_file_type_category " 3 " "Y" three_files
  = GUI.delete_category "Music" true three_files.
Proof.
  exact (proj1 (both_front_ends_delete_alike "Music" " 3 " "Y" 2 three_files
                  ltac:(vm_compute; reflexivity) ltac:(vm_compute; reflexivity))).
Defined.

(** ** The summary *)

Lemma join_empty_cons (item : string) (items : list string) :
  PyStr.join "" (item :: items) = item +:+ PyStr.join "" items.
Proof.
  destruct items as [|item2 items]; simpl.
  - by rewrite str_app_nil_r.
  - by rewrite str_app_nil_l.
Qed.

Lemma category_lines_from (summary : string) (items : list (string * nat)) :
  foldl (λ summary '(category, count),
           if 0 <? count
           then summary +:+ "  - " +:+ category +:+ ": " +:+ pretty count +:+ nl
           else summary)
        summary items
  = summary
    +:+ PyStr.join ""
          ((λ item, "  - " +:+ item.1 +:+ ": " +:+ pretty item.2 +:+ nl)
             <$> filter (λ item, 0 < item.2) items).
Proof.
  revert summary. induction items as [|[category count] items IH]; intros summary.
  - simpl. by rewrite str_app_nil_r.
  - cbn [foldl]. rewrite IH. destruct (Nat.ltb_spec 0 count) as [Hpos|Hzero].
    + rewrite filter_cons_True by done. rewrite fmap_cons, join_empty_cons.
      cbn [fst snd]. by rewrite !str_app_assoc.
    + rewrite filter_cons_False by (simpl; lia). done.
Qed.

(** X19. The summary ends with one line, ["  - category: count"], for each
    category whose count is positive, in the order of the statistics; a
    category with count zero is not mentioned.  When every count is zero,
    as after a run that found nothing to transfer, the summary stops after
    the heading of the categories. *)
Theorem summary_lists_the_positive_counts (s : state) :
  let heading :=
    "Organization Summary:" +:+ nl
    +:+ "Total files processed: " +:+ pretty (total_files (stats s)) +:+ nl
    +:+ "Files organized: " +:+ pretty (organized_files (stats s)) +:+ nl
    +:+ "Files skipped: " +:+ pretty (skipped_files (stats s)) +:+ nl
    +:+ "Total size processed: "
    +:+ default "None" (format_size (Z.of_nat (total_size (stats s)))) +:+ nl +:+ nl
    +:+ "Files by category:" +:+ nl in
  let line (item : string * nat) :=
    "  - " +:+ item.1 +:+ ": " +:+ pretty item.2 +:+ nl in
  get_summary s
  = heading
    +:+ PyStr.join ""
          (line <$> filter (λ item, 0 < item.2)
                      (map_to_list (categories (stats s))))
  ∧ ((∀ category count,
        categories (stats s) !! category = Some count → count = 0) →
     get_summary s = heading).
Proof.
  intros heading line.
  assert (Hsummary : get_summary s
            = heading
              +:+ PyStr.join ""
                    (line <$> filter (λ item, 0 < item.2)
                                (map_to_list (categories (stats s))))).
  { unfold get_summary, category_lines.
    rewrite category_lines_from, str_app_nil_l. subst heading.
    by rewrite !str_app_assoc. }
  split; [done|]. intros Hzero. rewrite Hsummary.
  destruct (filter _ _) as [|[category count] rest] eqn:Hfilter.
  - simpl. by rewrite str_app_nil_r.
  - assert (Hin : (category, count)
                  ∈ filter (λ item : string * nat, 0 < item.2)
                      (map_to_list (categories (stats s))))
      by (rewrite Hfilter; by left).
    apply list_elem_of_filter in Hin as [Hpos Hin].
    apply elem_of_map_to_list in Hin. apply Hzero in Hin. simpl in Hpos. lia.
Qed.

Lemma summary_lists_the_positive_counts_witness :
  get_summary (@organize_files Demo.env "/d" false false organised_before).2
  = "Organization Summary:" +:+ nl
    +:+ "Total files processed: 0" +:+ nl
    +:+ "Files organized: 0" +:+ nl
    +:+ "Files skipped: 0" +:+ nl
    +:+ "Total size processed: 0.00 B" +:+ nl +:+ nl
    +:+ "Files by category:" +:+ nl.
Proof.
  pose (run := @organize_files Demo.env "/d" false false organised_before).
  refine (eq_trans (proj2 (summary_lists_the_positive_counts run.2) _) _).
  - intros category count Hcount.
    assert (Hfresh : categories (stats run.2)
                     = gset_to_gmap 0 (list_to_set default_file_types.*1 ∪ {["Others"]}))
      by (vm_compute; reflexivity).
    rewrite Hfresh in Hcount. by apply lookup_gset_to_gmap_Some in Hcount as [_ <-].
  - vm_compute. reflexivity.
Defined.
